(** * practiselink: theme service and user controller

    A shallow embedding of
      - server/src/services/theme-service.ts   (class ThemeService)
      - server/src/controllers/user-controller.ts (class UserController)
    and the properties of the specification that concern them.

    Conventions.  An awaited call is a step of a state-passing computation;
    a thrown JavaScript value is the [Thrown] outcome; the table
    [app.themes] is the list of its rows; a SQL [WHERE] clause is evaluated
    in SQL's three-valued logic and selects the rows on which it is TRUE. *)

From Stdlib Require Import ZArith List String Bool Lia Permutation.
Import ListNotations.
Local Open Scope string_scope.
Local Open Scope Z_scope.

Set Implicit Arguments.

(** ** Status codes (package http-status-codes) *)

Module StatusCodes.
Definition BAD_REQUEST : Z := 400.
Definition UNAUTHORIZED : Z := 401.
Definition NOT_FOUND : Z := 404.
Definition CONFLICT : Z := 409.
Definition INTERNAL_SERVER_ERROR : Z := 500.
Definition NOT_IMPLEMENTED : Z := 501.
End StatusCodes.

(** ** Thrown values

    Modelled from the spec: utils/http-error.ts is not part of the sources;
    the spec describes a tagged error carrying an HTTP status code and a
    message.  [e instanceof HttpError] is a match on the constructor; every
    other thrown value (a driver error, a TypeError) is an [OtherError]. *)

Inductive Exn : Type :=
| HttpError (statusCode : Z) (message : string)
| OtherError (name : string).

Inductive Outcome (A : Type) : Type :=
| Returned (a : A)
| Thrown (e : Exn).

Arguments Returned {A} a.
Arguments Thrown {A} e.

(** ** SQL three-valued logic *)

Module Sql.

(** [a = b] on nullable text: NULL as soon as one side is NULL. *)
Definition eq_text (a b : option string) : option bool :=
  match a, b with
  | Some x, Some y => Some (String.eqb x y)
  | _, _ => None
  end.

Definition eq_bool (a b : option bool) : option bool :=
  match a, b with
  | Some x, Some y => Some (Bool.eqb x y)
  | _, _ => None
  end.

Definition and3 (a b : option bool) : option bool :=
  match a, b with
  | Some false, _ => Some false
  | _, Some false => Some false
  | Some true, Some true => Some true
  | _, _ => None
  end.

Definition or3 (a b : option bool) : option bool :=
  match a, b with
  | Some true, _ => Some true
  | _, Some true => Some true
  | Some false, Some false => Some false
  | _, _ => None
  end.

(** A row is selected when the clause is TRUE (not FALSE, not NULL). *)
Definition holds (c : option bool) : bool :=
  match c with
  | Some true => true
  | _ => false
  end.

End Sql.

(** ** The theme service *)

Module ThemeService.

Section WithConverter.

(** The palette type, the public [Theme] type and
    [DbTypeConverter.toTheme] live in files that are not part of the
    sources; the service is embedded over any of them. *)
Variable ThemeColors : Type.
Variable Theme : Type.

(** A row of [app.themes]: columns
    (id, user_id, label, colors, custom_css, custom_html, global). *)
Record DbTheme : Type := {
  id : string;
  user_id : option string;
  label : string;
  colors : option ThemeColors;
  custom_css : option string;
  custom_html : option string;
  global : bool
}.

Variable toTheme : DbTheme -> Theme.

Definition Table : Type := list DbTheme.

(** [QueryResult] of package pg, reduced to the two fields read. *)
Record QueryResult : Type := {
  rows : list DbTheme;
  rowCount : Z
}.

Definition result_of (rs : list DbTheme) : QueryResult :=
  {| rows := rs; rowCount := Z.of_nat (List.length rs) |}.

Definition Where : Type := DbTheme -> option bool.

Definition matching (w : Where) (r : DbTheme) : bool := Sql.holds (w r).

(** [select * from app.themes where w] *)
Definition select (w : Where) (tbl : Table) : QueryResult * Table :=
  (result_of (filter (matching w) tbl), tbl).

(** [update app.themes set ... where w returning *].  SQL fixes no order
    for the rows of a table, and the database may list a row elsewhere
    once it was updated; the list keeps every row at its place, and what
    is stated of a table after an update is stated up to the order of its
    rows. *)
Definition update (set : DbTheme -> DbTheme) (w : Where) (tbl : Table)
  : QueryResult * Table :=
  (result_of (map set (filter (matching w) tbl)),
   map (fun r => if matching w r then set r else r) tbl).

(** [delete from app.themes where w returning *] *)
Definition delete (w : Where) (tbl : Table) : QueryResult * Table :=
  (result_of (filter (matching w) tbl),
   filter (fun r => negb (matching w r)) tbl).

(** [DbTypeConverter.toTheme(queryResult.rows[0])]; reading a property
    of [undefined] throws a TypeError. *)
Definition first_row (q : QueryResult) : Outcome Theme :=
  match nth_error (rows q) 0 with
  | Some r => Returned (toTheme r)
  | None => Thrown (OtherError "TypeError")
  end.

Definition where_id (themeId : string) : Where :=
  fun r => Sql.eq_text (Some (id r)) (Some themeId).

Definition where_user (userId : string) : Where :=
  fun r => Sql.eq_text (user_id r) (Some userId).

Definition where_user_or_global (userId : string) : Where :=
  fun r => Sql.or3 (Sql.eq_text (user_id r) (Some userId))
                   (Sql.eq_bool (Some (global r)) (Some true)).

Definition where_id_and_user (themeId userId : string) : Where :=
  fun r => Sql.and3 (Sql.eq_text (Some (id r)) (Some themeId))
                    (Sql.eq_text (user_id r) (Some userId)).

Definition getTheme (themeId : string) (tbl : Table)
  : Outcome Theme * Table :=
  let '(queryResult, tbl') := select (where_id themeId) tbl in
  if rowCount queryResult <=? 0
  then (Thrown (HttpError StatusCodes.NOT_FOUND
                  "The theme couldn't be found."), tbl')
  else (first_row queryResult, tbl').

Definition listThemes (userId : string) (includeGlobal : bool)
  (tbl : Table) : Outcome (list Theme) * Table :=
  let '(queryResult, tbl') :=
    if includeGlobal
    then select (where_user_or_global userId) tbl
    else select (where_user userId) tbl in
  if rowCount queryResult <=? 0
  then (Thrown (HttpError StatusCodes.NOT_FOUND
                  "No themes were found."), tbl')
  else (Returned (map (fun x => toTheme x) (rows queryResult)), tbl').

Definition set_content (label' : string) (colors' : option ThemeColors)
  (customCss customHtml : option string) (r : DbTheme) : DbTheme :=
  {| id := id r; user_id := user_id r; label := label';
     colors := colors'; custom_css := customCss;
     custom_html := customHtml; global := global r |}.

Definition updateTheme (themeId userId : string) (label' : string)
  (colors' : option ThemeColors) (customCss customHtml : option string)
  (tbl : Table) : Outcome Theme * Table :=
  let '(queryResult, tbl') :=
    update (set_content label' colors' customCss customHtml)
           (where_id_and_user themeId userId) tbl in
  if rowCount queryResult <=? 0
  then (Thrown (HttpError StatusCodes.NOT_FOUND
          "Failed to update the theme because the id couldn't be found."),
        tbl')
  else (first_row queryResult, tbl').

Definition deleteTheme (themeId userId : string) (tbl : Table)
  : Outcome Theme * Table :=
  let '(queryResult, tbl') :=
    delete (where_id_and_user themeId userId) tbl in
  if rowCount queryResult <=? 0
  then (Thrown (HttpError StatusCodes.NOT_FOUND
          "Failed to delete the theme because the id couldn't be found."),
        tbl')
  else (first_row queryResult, tbl').

Definition set_global (g : bool) (r : DbTheme) : DbTheme :=
  {| id := id r; user_id := user_id r; label := label r;
     colors := colors r; custom_css := custom_css r;
     custom_html := custom_html r; global := g |}.

Definition setGlobal (themeId : string) (g : bool) (tbl : Table)
  : Outcome Theme * Table :=
  let '(queryResult, tbl') := update (set_global g) (where_id themeId) tbl in
  if rowCount queryResult <=? 0
  then (Thrown (HttpError StatusCodes.NOT_FOUND
          "Failed to add a new theme because the id couldn't be found."),
        tbl')
  else (first_row queryResult, tbl').

Definition set_user_id (u : string) (r : DbTheme) : DbTheme :=
  {| id := id r; user_id := Some u; label := label r;
     colors := colors r; custom_css := custom_css r;
     custom_html := custom_html r; global := global r |}.

Definition setUserId (themeId userId : string) (tbl : Table)
  : Outcome Theme * Table :=
  let '(queryResult, tbl') :=
    update (set_user_id userId) (where_id themeId) tbl in
  if rowCount queryResult <=? 0
  then (Thrown (HttpError StatusCodes.NOT_FOUND
          "Failed to add a new theme because the id couldn't be found."),
        tbl')
  else (first_row queryResult, tbl').

(** [insert into app.themes(label, colors, custom_css, custom_html,
     user_id) values (...) returning *].  The statement gives no value for
    the columns [id] and [global]: the row takes the values the database
    assigns to them, which the schema, not part of the sources, decides. *)
Definition insert (r : DbTheme) (tbl : Table) : QueryResult * Table :=
  (result_of [r], (tbl ++ [r])%list).

Definition createTheme (assignedId : string) (assignedGlobal : bool)
  (userId : string) (label' : string) (colors' : option ThemeColors)
  (customCss customHtml : option string) (tbl : Table)
  : Outcome Theme * Table :=
  let '(queryResult, tbl') :=
    insert {| id := assignedId; user_id := Some userId; label := label';
              colors := colors'; custom_css := customCss;
              custom_html := customHtml; global := assignedGlobal |} tbl in
  if rowCount queryResult <=? 0
  then (Thrown (HttpError StatusCodes.INTERNAL_SERVER_ERROR
          "Failed to add a new theme because of an internal server error."),
        tbl')
  else (first_row queryResult, tbl').

(** *** The visibility rule of the data model, in the spec's words:
    a global theme is visible to all, a non-global theme only to its
    owning user. *)
Definition owned_by (userId : string) (r : DbTheme) : bool :=
  match user_id r with
  | Some o => String.eqb o userId
  | None => false
  end.

Definition visible_to (userId : string) (r : DbTheme) : bool :=
  if global r then true else owned_by userId r.

(** *** [listThemes] in the spec's words: the themes owned by the user,
    plus the global ones when asked for; an empty result is an error. *)
Definition listThemes_spec (userId : string) (includeGlobal : bool)
  (tbl : Table) : Outcome (list Theme) :=
  let wanted :=
    filter (fun r => owned_by userId r || (includeGlobal && global r)) tbl in
  match wanted with
  | [] => Thrown (HttpError 404 "No themes were found.")
  | _ :: _ => Returned (map toTheme wanted)
  end.

End WithConverter.

Arguments id {ThemeColors} d.
Arguments user_id {ThemeColors} d.
Arguments global {ThemeColors} d.
Arguments label {ThemeColors} d.
Arguments colors {ThemeColors} d.
Arguments custom_css {ThemeColors} d.
Arguments custom_html {ThemeColors} d.

End ThemeService.

(** ** Domain objects handled by the controller *)

(** Modelled from the spec: the [User] type is declared in a file that is
    not part of the sources; the spec lists identifier, email, display
    name, creation timestamp and active-profile reference. *)
Module User.
Record t : Type := {
  id : string;
  email : string;
  fullName : string;
  createdOn : string;
  activeProfileId : option string
}.
End User.

(** Modelled from the spec: the [Profile] type is declared in a file that is
    not part of the sources; the spec lists identifier, owning user
    identifier and unique handle. *)
Module Profile.
Record t : Type := {
  id : string;
  userId : string;
  handle : string
}.
End Profile.

(** What [UserService.loginUser] resolves to: the controller reads
    [user.id] and [activeProfile?.id] and hands the object back. *)
Record LoginResult : Type := {
  login_user : User.t;
  login_activeProfile : option Profile.t;
  login_token : string
}.

(** JavaScript truthiness of an optional string field: [undefined] and the
    empty string are falsy. *)
Definition truthy (x : option string) : bool :=
  match x with
  | None => false
  | Some s => negb (String.eqb s "")
  end.

Definition str (x : option string) : string :=
  match x with
  | None => ""
  | Some s => s
  end.

(** ** Package jsonwebtoken, as far as [jwt.sign] is used

    A token is kept symbolic: the claims it carries and the key it was
    signed with.  [iat] is the clock reading at the call, in seconds, and
    [exp] is [iat] plus the [expiresIn] span; a span is a decimal number
    followed by a unit letter, as package ms reads it. *)
Module jwt.

Record Token : Type := {
  claim_email : string;
  iat : Z;
  exp : Z;
  signedWith : string
}.

Definition digit (c : Ascii.ascii) : option Z :=
  let n := Z.of_nat (Ascii.nat_of_ascii c) in
  if (48 <=? n) && (n <=? 57) then Some (n - 48) else None.

Definition unit_seconds (u : string) : option Z :=
  if String.eqb u "s" then Some 1
  else if String.eqb u "m" then Some 60
  else if String.eqb u "h" then Some 3600
  else if String.eqb u "d" then Some 86400
  else None.

(** [span acc seen s]: the seconds denoted by the digits read so far
    ([acc], [seen] once one was read) followed by [s]. *)
Fixpoint span (acc : Z) (seen : bool) (s : string) : option Z :=
  match s with
  | EmptyString => None
  | String c rest =>
      match digit c with
      | Some d => span (10 * acc + d) true rest
      | None =>
          if seen
          then match unit_seconds s with
               | Some k => Some (acc * k)
               | None => None
               end
          else None
      end
  end.

Definition sign (email secret expiresIn : string) (now : Z)
  : Outcome Token :=
  if String.eqb secret ""
  then Thrown (OtherError "secretOrPrivateKey must have a value")
  else match span 0 false expiresIn with
       | Some seconds =>
           Returned {| claim_email := email; iat := now;
                       exp := now + seconds; signedWith := secret |}
       | None => Thrown (OtherError "invalid expiresIn option")
       end.

End jwt.

(** ** Package mixpanel: the calls made on the client, in order *)

Inductive MixpanelCall : Type :=
| track (event : string) (properties : list (string * option string))
| people_set (distinct_id : string) (properties : list (string * option string)).

(** ** Request shapes *)

Record FastifyRequest (B : Type) : Type := {
  ip : string;
  body : B
}.

Module LoginUserRequest.
Record Body : Type := { email : option string; password : option string }.
End LoginUserRequest.

Module CreateUserRequest.
Record Body : Type := {
  email : option string;
  password : option string;
  name : string;
  handle : string
}.
End CreateUserRequest.

Module UserRequestResetPasswordRequest.
Record Body : Type := { email : option string }.
End UserRequestResetPasswordRequest.

Module ResetUserPasswordRequest.
Record Body : Type := { token : option string; password : option string }.
End ResetUserPasswordRequest.

(** [AuthenticatedRequest] is declared in utils/auth.ts, which is not part
    of the sources; the handlers read [authUser] from it. *)
Module AuthenticatedRequest.
Record Body : Type := { authUser : User.t }.
End AuthenticatedRequest.

Module SetActiveProfileRequest.
Record Body : Type := {
  newProfileId : option string;
  authUser : User.t
}.
End SetActiveProfileRequest.

(** [config.secret] and [config.analytics.mixpanelToken]. *)
Record Config : Type := {
  secret : string;
  mixpanelToken : option string
}.

(** ** The user controller *)

Module UserController.

Section WithServices.

(** The persistent state behind the services, and what
    [UserService.setActiveProfile] resolves to. *)
Variable World : Type.
Variable Association : Type.

(** services/user-service.ts and services/profile-service.ts are not
    part of the sources: the controller is embedded over any
    implementation of the methods it calls.  A method takes the state
    of the store and gives back its outcome and the new state. *)
Record UserService : Type := {
  loginUser : string -> string -> World -> Outcome LoginResult * World;
  createUser :
    string -> string -> string -> World -> Outcome User.t * World;
  setActiveProfile :
    string -> string -> World -> Outcome Association * World;
  sendPasswordResetEmail : string -> World -> Outcome User.t * World;
  setPasswordWithToken :
    string -> string -> World -> Outcome unit * World
}.

Record ProfileService : Type := {
  getProfileByHandle :
    string -> bool -> World -> Outcome (option Profile.t) * World;
  createProfile : string -> string -> World -> Outcome Profile.t * World;
  getProfile : string -> World -> Outcome Profile.t * World
}.

(** What a handler hands to the framework as the response payload. *)
Inductive Payload : Type :=
| error_payload (message : string) (cause : option Exn)
| success_payload (message : string)
| login_payload (r : LoginResult)
| created_payload (user : User.t) (activeProfile : Profile.t)
                  (token : jwt.Token)
| user_payload (u : User.t)
| association_payload (a : Association).

(** Modelled from the spec: utils/reply-utils.ts is not part of the
    sources; [ReplyUtils.error] builds the error-shaped body from a
    message and an optional cause. *)
Definition ReplyUtils_error (message : string) (cause : option Exn)
  : Payload := error_payload message cause.

(** Modelled from the spec: utils/reply-utils.ts is not part of the
    sources; [ReplyUtils.success] builds the generic success
    acknowledgment. *)
Definition ReplyUtils_success (message : string) : Payload :=
  success_payload message.

(** The [FastifyReply] of one request: the status code set so far and
    the payload passed to [send], if any. *)
Record Reply : Type := {
  statusCode : Z;
  sent : option Payload
}.

(** Everything a handler can change. *)
Record St : Type := {
  reply : Reply;
  world : World;
  mixpanel_log : list MixpanelCall
}.

Definition fresh (w : World) : St :=
  {| reply := {| statusCode := 200; sent := None |};
     world := w; mixpanel_log := [] |}.

(** *** Handler computations: state passing with thrown values *)

Definition M (A : Type) : Type := St -> Outcome A * St.

Definition ret {A : Type} (a : A) : M A := fun s => (Returned a, s).

Definition throw {A : Type} (e : Exn) : M A := fun s => (Thrown e, s).

Definition bind {A B : Type} (m : M A) (k : A -> M B) : M B :=
  fun s =>
    match m s with
    | (Returned a, s') => k a s'
    | (Thrown e, s') => (Thrown e, s')
    end.

(** [try { m } catch (e) { h e }]: what [m] did to the state stays. *)
Definition try_catch {A : Type} (m : M A) (h : Exn -> M A) : M A :=
  fun s =>
    match m s with
    | (Returned a, s') => (Returned a, s')
    | (Thrown e, s') => h e s'
    end.

(** [await service.method(...)] *)
Definition await {A : Type} (f : World -> Outcome A * World) : M A :=
  fun s =>
    let '(o, w') := f (world s) in
    (o, {| reply := reply s; world := w';
           mixpanel_log := mixpanel_log s |}).

(** [reply.code(c)], which [reply.status(c)] is an alias of. *)
Definition reply_code (c : Z) : M unit :=
  fun s =>
    (Returned tt,
     {| reply := {| statusCode := c; sent := sent (reply s) |};
        world := world s; mixpanel_log := mixpanel_log s |}).

(** [reply.send(p)] *)
Definition reply_send (p : Payload) : M unit :=
  fun s =>
    (Returned tt,
     {| reply := {| statusCode := statusCode (reply s); sent := Some p |};
        world := world s; mixpanel_log := mixpanel_log s |}).

Definition mixpanel_call (c : MixpanelCall) : M unit :=
  fun s =>
    (Returned tt,
     {| reply := reply s; world := world s;
        mixpanel_log := mixpanel_log s ++ [c] |}).

Definition lift {A : Type} (o : Outcome A) : M A := fun s => (o, s).

Local Notation "x <- m ;; k" := (bind m (fun x => k))
  (at level 61, m at next level, right associativity).
Local Notation "m ;;; k" := (bind m (fun _ => k))
  (at level 61, right associativity).

(** *** The controller instance: [this] *)

Variable userService : UserService.
Variable profileService : ProfileService.
Variable config : Config.

(** The clock reading, in seconds, that [jwt.sign] takes as [iat]. *)
Variable now : Z.

(** [this.mixpanel] is a client when a token is configured, else null. *)
Definition mixpanel : bool := truthy (mixpanelToken config).

(** [if (this.mixpanel) this.mixpanel.<call>] *)
Definition if_mixpanel (c : MixpanelCall) : M unit :=
  if mixpanel then mixpanel_call c else ret tt.

(** The catch clause that closes every handler:
    [if (e instanceof HttpError) { reply.code(e.statusCode);
       return ReplyUtils.error(e.message, e); } throw e;] *)
Definition http_error_reply (e : Exn) : M (option Payload) :=
  match e with
  | HttpError c m =>
      reply_code c ;;;
      ret (Some (ReplyUtils_error m (Some e)))
  | OtherError _ => throw e
  end.

(** [reply.status(BAD_REQUEST).send(ReplyUtils.error(msg)); return;] *)
Definition bad_request (msg : string) : M (option Payload) :=
  reply_code StatusCodes.BAD_REQUEST ;;;
  reply_send (ReplyUtils_error msg None) ;;;
  ret None.

(** Route /user/login *)
Definition LoginUser (request : FastifyRequest LoginUserRequest.Body)
  : M (option Payload) :=
  try_catch
    (let body := body request in
     if negb (truthy (LoginUserRequest.email body)) then
       bad_request "No email was provided."
     else if negb (truthy (LoginUserRequest.password body)) then
       bad_request "No password was provided."
     else
       loginResultData <-
         await (loginUser userService
                  (str (LoginUserRequest.email body))
                  (str (LoginUserRequest.password body))) ;;
       if_mixpanel
         (track "user logged in"
            [("distinct_id", Some (User.id (login_user loginResultData)));
             ("$ip", Some (ip request));
             ("profile",
              option_map Profile.id
                (login_activeProfile loginResultData))]) ;;;
       ret (Some (login_payload loginResultData)))
    http_error_reply.

(** The inner try/catch of /user/create.  [Some v]: the handler returns
    [v] at once; [None]: control falls through to the creation steps. *)
Definition check_handle (handle : string)
  : M (option (option Payload)) :=
  try_catch
    (checkProfile <-
       await (getProfileByHandle profileService handle false) ;;
     match checkProfile with
     | Some _ =>
         reply_code StatusCodes.CONFLICT ;;;
         ret (Some (Some (ReplyUtils_error
           "The profile couldn't be added because it is already being used."
           None)))
     | None => ret None
     end)
    (fun e =>
       match e with
       | HttpError c m =>
           if negb (c =? StatusCodes.NOT_FOUND) then
             reply_code c ;;;
             ret (Some (Some (ReplyUtils_error m (Some e))))
           else ret None
       | OtherError _ => ret None
       end).

(** Route /user/create *)
Definition CreateUser (request : FastifyRequest CreateUserRequest.Body)
  : M (option Payload) :=
  try_catch
    (let body := body request in
     if negb (truthy (CreateUserRequest.email body)) then
       bad_request "No email was provided."
     else if negb (truthy (CreateUserRequest.password body)) then
       bad_request "No password was provided."
     else
       early <- check_handle (CreateUserRequest.handle body) ;;
       match early with
       | Some v => ret v
       | None =>
           user <-
             await (createUser userService
                      (str (CreateUserRequest.email body))
                      (str (CreateUserRequest.password body))
                      (CreateUserRequest.name body)) ;;
           profile <-
             await (createProfile profileService (User.id user)
                      (CreateUserRequest.handle body)) ;;
           _ <- await (setActiveProfile userService (User.id user)
                         (Profile.id profile)) ;;
           token <-
             lift (jwt.sign (User.email user) (secret config) "168h" now) ;;
           if_mixpanel
             (track "user created"
                [("distinct_id", Some (User.id user));
                 ("$ip", Some (ip request));
                 ("profile", Some (Profile.id profile))]) ;;;
           if_mixpanel
             (people_set (User.id user)
                [("$email", Some (User.email user));
                 ("$created", Some (User.createdOn user))]) ;;;
           ret (Some (created_payload user profile token))
       end)
    http_error_reply.

(** Route /user/request-reset-password *)
Definition UserRequestResetPassword
  (request : FastifyRequest UserRequestResetPasswordRequest.Body)
  : M (option Payload) :=
  try_catch
    (let body := body request in
     if negb (truthy (UserRequestResetPasswordRequest.email body)) then
       reply_code StatusCodes.NOT_FOUND ;;;
       reply_send (ReplyUtils_error "No email was provided." None) ;;;
       ret None
     else
       user <-
         await (sendPasswordResetEmail userService
                  (str (UserRequestResetPasswordRequest.email body))) ;;
       if_mixpanel
         (track "user requested password reset"
            [("distinct_id", Some (User.id user));
             ("$ip", Some (ip request))]) ;;;
       ret (Some (ReplyUtils_success
                    "Successfully sent password reset email.")))
    http_error_reply.

(** Route /user/reset-password *)
Definition ResetUserPassword
  (request : FastifyRequest ResetUserPasswordRequest.Body)
  : M (option Payload) :=
  try_catch
    (let body := body request in
     if negb (truthy (ResetUserPasswordRequest.token body)) then
       bad_request "No email was provided."
     else if negb (truthy (ResetUserPasswordRequest.password body)) then
       bad_request "No email was provided."
     else
       await (setPasswordWithToken userService
                (str (ResetUserPasswordRequest.token body))
                (str (ResetUserPasswordRequest.password body))) ;;;
       ret (Some (ReplyUtils_success "Successfully changed password.")))
    http_error_reply.

(** Route /user *)
Definition GetUser (request : FastifyRequest AuthenticatedRequest.Body)
  : M (option Payload) :=
  ret (Some (user_payload (AuthenticatedRequest.authUser (body request)))).

(** The three routes that are not implemented read nothing of the
    request: they are embedded over any body at all. *)
Definition not_implemented : M (option Payload) :=
  try_catch
    (reply_code StatusCodes.NOT_IMPLEMENTED ;;;
     ret (Some (ReplyUtils_error "Sorry, this is not implemented yet."
                  None)))
    http_error_reply.

(** Route /user/update *)
Definition UpdateUser (B : Type) (request : FastifyRequest B)
  : M (option Payload) := not_implemented.

(** Route /user/delete *)
Definition DeleteUser (B : Type) (request : FastifyRequest B)
  : M (option Payload) := not_implemented.

(** Route /user/data-package *)
Definition GetUserDataPackage (B : Type) (request : FastifyRequest B)
  : M (option Payload) := not_implemented.

(** What the try block of an async function completes with: a value,
    or a promise returned without [await].  The promise settles after
    the block is left, so its rejection passes the catch clause by. *)
Inductive Completion : Type :=
| value (v : option Payload)
| promise (p : World -> Outcome Association * World).

(** Route /user/set-active-profile *)
Definition SetActiveProfile
  (request : FastifyRequest SetActiveProfileRequest.Body)
  : M (option Payload) :=
  completion <-
    try_catch
      (let body := body request in
       let user := SetActiveProfileRequest.authUser body in
       let newProfileId := SetActiveProfileRequest.newProfileId body in
       if negb (truthy newProfileId) then
         v <- bad_request "No email was provided." ;;
         ret (value v)
       else
         newProfile <-
           await (getProfile profileService (str newProfileId)) ;;
         if negb (String.eqb (User.id user) (Profile.userId newProfile))
         then
           reply_code StatusCodes.UNAUTHORIZED ;;;
           reply_send (ReplyUtils_error
                         "The user doesn't own the profile." None) ;;;
           ret (value None)
         else
           if_mixpanel
             (track "user set active profile"
                [("distinct_id", Some (User.id user));
                 ("$ip", Some (ip request));
                 ("profile", Some (str newProfileId))]) ;;;
           ret (promise (setActiveProfile userService (User.id user)
                           (str newProfileId))))
      (fun e => v <- http_error_reply e ;; ret (value v)) ;;
  match completion with
  | value v => ret v
  | promise p =>
      a <- await p ;;
      ret (Some (association_payload a))
  end.

(** *** What the framework sends for a finished handler *)

Inductive Response : Type :=
| Sent (code : Z) (payload : Payload)
| Empty (code : Z)
| Uncaught (e : Exn).

(** A payload passed to [reply.send] is the response; otherwise the
    value the handler resolves to is sent under the status code set;
    a value thrown out of the handler is left to the framework. *)
Definition respond (r : Outcome (option Payload) * St) : Response :=
  let '(o, s) := r in
  match sent (reply s) with
  | Some p => Sent (statusCode (reply s)) p
  | None =>
      match o with
      | Returned (Some p) => Sent (statusCode (reply s)) p
      | Returned None => Empty (statusCode (reply s))
      | Thrown e => Uncaught e
      end
  end.

(** The state once the status code is [c]. *)
Definition coded (c : Z) (s : St) : St :=
  {| reply := {| statusCode := c; sent := sent (reply s) |};
     world := world s; mixpanel_log := mixpanel_log s |}.

(** The state once [p] was sent under status [c]. *)
Definition replied (c : Z) (p : Payload) (s : St) : St :=
  {| reply := {| statusCode := c; sent := Some p |};
     world := world s; mixpanel_log := mixpanel_log s |}.

(** The state once the store is [w]. *)
Definition with_world (s : St) (w : World) : St :=
  {| reply := reply s; world := w; mixpanel_log := mixpanel_log s |}.

(** The error translation policy, in the spec's words: a thrown error
    carrying a status code becomes a response with that status code and
    an error-shaped body; any other thrown error propagates. *)
Definition translated (e : Exn) (s : St) : Outcome (option Payload) * St :=
  match e with
  | HttpError c m => (Returned (Some (error_payload m (Some e))), coded c s)
  | OtherError _ => (Thrown e, s)
  end.

End WithServices.

End UserController.

(** ** An in-memory store behind the services

    Used to run the handlers on concrete requests. *)

Module Store.

Record t : Type := {
  users : list User.t;
  credentials : list (string * string);
  profiles : list Profile.t;
  resetTokens : list (string * string)
}.

Definition find_user_by_email (email : string) (s : t) : option User.t :=
  find (fun u => String.eqb (User.email u) email) (users s).

Definition find_user (userId : string) (s : t) : option User.t :=
  find (fun u => String.eqb (User.id u) userId) (users s).

Definition find_profile (profileId : string) (s : t) : option Profile.t :=
  find (fun p => String.eqb (Profile.id p) profileId) (profiles s).

Definition find_profile_by_handle (handle : string) (s : t)
  : option Profile.t :=
  find (fun p => String.eqb (Profile.handle p) handle) (profiles s).

(** Modelled from the spec: services/profile-service.ts is not part of
    the sources; services throw status-carrying errors for expected
    failure modes, a missing resource being a not-found error (404). *)
Definition getProfile (profileId : string) (s : t)
  : Outcome Profile.t * t :=
  match find_profile profileId s with
  | Some p => (Returned p, s)
  | None =>
      (Thrown (HttpError StatusCodes.NOT_FOUND
                 "The profile couldn't be found."), s)
  end.

(** Modelled from the spec: services/profile-service.ts is not part of
    the sources; the lookup of a profile by its handle finds it or ends
    in a not-found error. *)
Definition getProfileByHandle (handle : string) (checkVisibility : bool)
  (s : t) : Outcome (option Profile.t) * t :=
  match find_profile_by_handle handle s with
  | Some p => (Returned (Some p), s)
  | None =>
      (Thrown (HttpError StatusCodes.NOT_FOUND
                 "The profile couldn't be found."), s)
  end.

(** Modelled from the spec: services/profile-service.ts is not part of
    the sources; a profile has an identifier, an owning user and a
    handle, and is created alongside user registration. *)
Definition createProfile (userId handle : string) (s : t)
  : Outcome Profile.t * t :=
  let p := {| Profile.id := "profile:" ++ handle;
              Profile.userId := userId;
              Profile.handle := handle |} in
  (Returned p,
   {| users := users s; credentials := credentials s;
      profiles := profiles s ++ [p]; resetTokens := resetTokens s |}).

(** Modelled from the spec: services/user-service.ts is not part of the
    sources; a user is created at registration with an email, a display
    name and a creation timestamp, and no active profile yet. *)
Definition createUser (email password name : string) (s : t)
  : Outcome User.t * t :=
  let u := {| User.id := "user:" ++ email; User.email := email;
              User.fullName := name; User.createdOn := "2021-01-01";
              User.activeProfileId := None |} in
  (Returned u,
   {| users := users s ++ [u];
      credentials := credentials s ++ [(email, password)];
      profiles := profiles s; resetTokens := resetTokens s |}).

Definition activate (profileId : string) (u : User.t) : User.t :=
  {| User.id := User.id u; User.email := User.email u;
     User.fullName := User.fullName u; User.createdOn := User.createdOn u;
     User.activeProfileId := Some profileId |}.

(** Modelled from the spec: services/user-service.ts is not part of the
    sources; a user has one active profile at a time, and setting it
    gives back the updated association. *)
Definition setActiveProfile (userId profileId : string) (s : t)
  : Outcome User.t * t :=
  match find_user userId s with
  | Some u =>
      (Returned (activate profileId u),
       {| users :=
            map (fun x => if String.eqb (User.id x) userId
                          then activate profileId x else x) (users s);
          credentials := credentials s; profiles := profiles s;
          resetTokens := resetTokens s |})
  | None =>
      (Thrown (HttpError StatusCodes.NOT_FOUND
                 "The user couldn't be found."), s)
  end.

Definition has_credentials (email password : string) (s : t) : bool :=
  existsb (fun c => String.eqb (fst c) email && String.eqb (snd c) password)
          (credentials s).

(** Modelled from the spec: services/user-service.ts is not part of the
    sources; login authenticates by email and password and gives back the
    user, the active profile if any, and a token. *)
Definition loginUser (email password : string) (s : t)
  : Outcome LoginResult * t :=
  match find_user_by_email email s with
  | Some u =>
      if has_credentials email password s then
        (Returned
           {| login_user := u;
              login_activeProfile :=
                match User.activeProfileId u with
                | Some i => find_profile i s
                | None => None
                end;
              login_token := "session:" ++ email |}, s)
      else
        (Thrown (HttpError StatusCodes.UNAUTHORIZED
                   "The password is incorrect."), s)
  | None =>
      (Thrown (HttpError StatusCodes.NOT_FOUND
                 "The user couldn't be found."), s)
  end.

(** Modelled from the spec: services/user-service.ts is not part of the
    sources; a reset token is issued for the user with the given email. *)
Definition sendPasswordResetEmail (email : string) (s : t)
  : Outcome User.t * t :=
  match find_user_by_email email s with
  | Some u =>
      (Returned u,
       {| users := users s; credentials := credentials s;
          profiles := profiles s;
          resetTokens := ("reset:" ++ email, email) :: resetTokens s |})
  | None =>
      (Thrown (HttpError StatusCodes.NOT_FOUND
                 "The user couldn't be found."), s)
  end.

(** Modelled from the spec: services/user-service.ts is not part of the
    sources; a reset token is single-use and proves the right to change
    the password of its user. *)
Definition setPasswordWithToken (token password : string) (s : t)
  : Outcome unit * t :=
  match find (fun r => String.eqb (fst r) token) (resetTokens s) with
  | Some (_, email) =>
      (Returned tt,
       {| users := users s;
          credentials :=
            map (fun c => if String.eqb (fst c) email
                          then (email, password) else c) (credentials s);
          profiles := profiles s;
          resetTokens :=
            filter (fun r => negb (String.eqb (fst r) token))
                   (resetTokens s) |})
  | None =>
      (Thrown (HttpError StatusCodes.NOT_FOUND
                 "The reset token couldn't be found."), s)
  end.

(** A method whose promise rejects with [e]. *)
Definition rejects {A : Type} (e : Exn) (s : t) : Outcome A * t :=
  (Thrown e, s).

Definition userService : UserController.UserService t User.t :=
  {| UserController.loginUser := loginUser;
     UserController.createUser := createUser;
     UserController.setActiveProfile := setActiveProfile;
     UserController.sendPasswordResetEmail := sendPasswordResetEmail;
     UserController.setPasswordWithToken := setPasswordWithToken |}.

Definition profileService : UserController.ProfileService t :=
  {| UserController.getProfileByHandle := getProfileByHandle;
     UserController.createProfile := createProfile;
     UserController.getProfile := getProfile |}.

(** The services with some methods replaced, to run a handler against
    a call that fails. *)
Definition userServiceWith
  (create : string -> string -> string -> t -> Outcome User.t * t)
  (setActive : string -> string -> t -> Outcome User.t * t)
  : UserController.UserService t User.t :=
  {| UserController.loginUser := loginUser;
     UserController.createUser := create;
     UserController.setActiveProfile := setActive;
     UserController.sendPasswordResetEmail := sendPasswordResetEmail;
     UserController.setPasswordWithToken := setPasswordWithToken |}.

Definition profileServiceWith
  (byHandle : string -> bool -> t -> Outcome (option Profile.t) * t)
  (create : string -> string -> t -> Outcome Profile.t * t)
  : UserController.ProfileService t :=
  {| UserController.getProfileByHandle := byHandle;
     UserController.createProfile := create;
     UserController.getProfile := getProfile |}.

(** The profile service while the database cannot be reached for the
    handle lookup: the lookup rejects with the driver's error. *)
Definition unreachableProfileService : UserController.ProfileService t :=
  profileServiceWith (fun _ _ => rejects (OtherError "ECONNREFUSED"))
                     createProfile.

End Store.

(** ** Concrete data for the examples *)

Module Examples.

Definition alice : User.t :=
  {| User.id := "user:a@b.com"; User.email := "a@b.com";
     User.fullName := "A"; User.createdOn := "2021-01-01";
     User.activeProfileId := Some "profile:abee" |}.

Definition bob : User.t :=
  {| User.id := "user:b@b.com"; User.email := "b@b.com";
     User.fullName := "B"; User.createdOn := "2021-01-01";
     User.activeProfileId := None |}.

Definition abee : Profile.t :=
  {| Profile.id := "profile:abee"; Profile.userId := "user:a@b.com";
     Profile.handle := "abee" |}.

Definition store : Store.t :=
  {| Store.users := [alice; bob];
     Store.credentials := [("a@b.com", "x"); ("b@b.com", "y")];
     Store.profiles := [abee];
     Store.resetTokens := [] |}.

Definition empty_store : Store.t :=
  {| Store.users := []; Store.credentials := [];
     Store.profiles := []; Store.resetTokens := [] |}.

Definition config : Config :=
  {| secret := "s3cret"; mixpanelToken := Some "mp-token" |}.

Definition clock : Z := 1600000000.

(** The same configuration without an analytics token. *)
Definition quiet_config : Config :=
  {| secret := "s3cret"; mixpanelToken := None |}.

(** A view of a row that looks at its id only. *)
Definition id_of (r : ThemeService.DbTheme string) : string :=
  ThemeService.id r.

Definition carol : User.t :=
  {| User.id := "user:c@b.com"; User.email := "c@b.com";
     User.fullName := "C"; User.createdOn := "2021-01-01";
     User.activeProfileId := None |}.

Definition profile_of_carol (handle : string) : Profile.t :=
  {| Profile.id := "profile:" ++ handle; Profile.userId := "user:c@b.com";
     Profile.handle := handle |}.

Definition token_of_carol : jwt.Token :=
  {| jwt.claim_email := "c@b.com"; jwt.iat := 1600000000;
     jwt.exp := 1600604800; jwt.signedWith := "s3cret" |}.

Definition create_request (email password : option string)
  (name handle : string) : FastifyRequest CreateUserRequest.Body :=
  {| ip := "10.0.0.1";
     body := {| CreateUserRequest.email := email;
                CreateUserRequest.password := password;
                CreateUserRequest.name := name;
                CreateUserRequest.handle := handle |} |}.

Definition login_request (email password : option string)
  : FastifyRequest LoginUserRequest.Body :=
  {| ip := "10.0.0.1";
     body := {| LoginUserRequest.email := email;
                LoginUserRequest.password := password |} |}.

Definition request_reset_request (email : option string)
  : FastifyRequest UserRequestResetPasswordRequest.Body :=
  {| ip := "10.0.0.1";
     body := {| UserRequestResetPasswordRequest.email := email |} |}.

Definition reset_request (token password : option string)
  : FastifyRequest ResetUserPasswordRequest.Body :=
  {| ip := "10.0.0.1";
     body := {| ResetUserPasswordRequest.token := token;
                ResetUserPasswordRequest.password := password |} |}.

Definition set_active_request (caller : User.t)
  (newProfileId : option string)
  : FastifyRequest SetActiveProfileRequest.Body :=
  {| ip := "10.0.0.1";
     body := {| SetActiveProfileRequest.newProfileId := newProfileId;
                SetActiveProfileRequest.authUser := caller |} |}.

(** A fresh reply over the example store. *)
Definition start : UserController.St Store.t User.t :=
  UserController.fresh User.t store.

(** Rows of [app.themes]; the palette is kept as text and the public
    theme is the row itself. *)
Definition row (i : string) (o : option string) (g : bool)
  : ThemeService.DbTheme string :=
  {| ThemeService.id := i; ThemeService.user_id := o;
     ThemeService.label := "theme"; ThemeService.colors := None;
     ThemeService.custom_css := None; ThemeService.custom_html := None;
     ThemeService.global := g |}.

Definition themes : list (ThemeService.DbTheme string) :=
  [row "t1" (Some "alice") false;
   row "t2" (Some "bob") false;
   row "t3" (Some "carol") true;
   row "t4" None true].

Definition toTheme (r : ThemeService.DbTheme string)
  : ThemeService.DbTheme string := r.

End Examples.

(** * Properties of the theme service *)

Section ThemeServiceFacts.

Import ThemeService.

Variable ThemeColors : Type.
Variable Theme : Type.
Variable toTheme : DbTheme ThemeColors -> Theme.

Local Abbreviation Row := (DbTheme ThemeColors).

(** The WHERE clauses, read in two-valued logic. *)

Lemma matching_where_user (userId : string) (r : Row) :
  matching (where_user userId) r = owned_by userId r.
Proof.
  unfold matching, where_user, owned_by, Sql.eq_text.
  destruct (user_id r) as [o|]; simpl; [|reflexivity].
  destruct (String.eqb o userId); reflexivity.
Qed.

Lemma matching_where_user_or_global (userId : string) (r : Row) :
  matching (where_user_or_global userId) r = owned_by userId r || global r.
Proof.
  unfold matching, where_user_or_global, owned_by, Sql.eq_text, Sql.eq_bool.
  destruct (user_id r) as [o|]; simpl.
  - destruct (String.eqb o userId), (global r); reflexivity.
  - destruct (global r); reflexivity.
Qed.

Lemma matching_where_id (themeId : string) (r : Row) :
  matching (where_id themeId) r = String.eqb (id r) themeId.
Proof.
  unfold matching, where_id, Sql.eq_text; simpl.
  destruct (String.eqb (id r) themeId); reflexivity.
Qed.

Lemma matching_where_id_and_user (themeId userId : string) (r : Row) :
  matching (where_id_and_user themeId userId) r
  = String.eqb (id r) themeId && owned_by userId r.
Proof.
  unfold matching, where_id_and_user, owned_by, Sql.eq_text.
  destruct (user_id r) as [o|]; simpl.
  - destruct (String.eqb (id r) themeId), (String.eqb o userId); reflexivity.
  - destruct (String.eqb (id r) themeId); reflexivity.
Qed.

Lemma owned_by_true (userId : string) (r : Row) :
  owned_by userId r = true <-> user_id r = Some userId.
Proof.
  unfold owned_by. destruct (user_id r) as [o|].
  - rewrite String.eqb_eq. split; congruence.
  - split; discriminate.
Qed.

(** Emptiness of a result set, as the services test it. *)
Lemma rowCount_le_0 (rs : list Row) :
  (rowCount (result_of rs) <=? 0) = match rs with [] => true | _ => false end.
Proof.
  destruct rs as [|r rs]; [reflexivity|].
  unfold result_of; cbn [rowCount List.length].
  apply Z.leb_gt. lia.
Qed.

(** Statements that touch no row. *)

Lemma filter_nothing (f : Row -> bool) (tbl : list Row) :
  (forall r, In r tbl -> f r = false) -> filter f tbl = [].
Proof.
  induction tbl as [|r tbl IH]; intros H; [reflexivity|].
  simpl. rewrite (H r (or_introl eq_refl)).
  apply IH. intros r' Hr'. apply H. right. exact Hr'.
Qed.

Lemma filter_everything (f : Row -> bool) (tbl : list Row) :
  (forall r, In r tbl -> f r = false) ->
  filter (fun r => negb (f r)) tbl = tbl.
Proof.
  induction tbl as [|r tbl IH]; intros H; [reflexivity|].
  simpl. rewrite (H r (or_introl eq_refl)). simpl.
  f_equal. apply IH. intros r' Hr'. apply H. right. exact Hr'.
Qed.

Lemma map_untouched (f : Row -> bool) (g : Row -> Row) (tbl : list Row) :
  (forall r, In r tbl -> f r = false) ->
  map (fun r => if f r then g r else r) tbl = tbl.
Proof.
  induction tbl as [|r tbl IH]; intros H; [reflexivity|].
  simpl. rewrite (H r (or_introl eq_refl)).
  f_equal. apply IH. intros r' Hr'. apply H. right. exact Hr'.
Qed.

Lemma updateTheme_no_match (themeId userId lbl : string)
  (cols : option ThemeColors) (css html : option string) (tbl : list Row) :
  (forall r, In r tbl ->
     matching (where_id_and_user themeId userId) r = false) ->
  updateTheme toTheme themeId userId lbl cols css html tbl
  = (Thrown (HttpError 404
       "Failed to update the theme because the id couldn't be found."),
     tbl).
Proof.
  intros H. unfold updateTheme, update.
  rewrite (filter_nothing _ _ H), (map_untouched _ _ _ H).
  reflexivity.
Qed.

Lemma deleteTheme_no_match (themeId userId : string) (tbl : list Row) :
  (forall r, In r tbl ->
     matching (where_id_and_user themeId userId) r = false) ->
  deleteTheme toTheme themeId userId tbl
  = (Thrown (HttpError 404
       "Failed to delete the theme because the id couldn't be found."),
     tbl).
Proof.
  intros H. unfold deleteTheme, delete.
  rewrite (filter_nothing _ _ H), (filter_everything _ _ H).
  reflexivity.
Qed.

Lemma no_match_other_owner (themeId userId : string) (tbl : list Row) :
  (forall r, In r tbl -> id r = themeId -> user_id r <> Some userId) ->
  forall r, In r tbl ->
    matching (where_id_and_user themeId userId) r = false.
Proof.
  intros H r Hr. rewrite matching_where_id_and_user.
  destruct (String.eqb (id r) themeId) eqn:E; [|reflexivity].
  apply String.eqb_eq in E. simpl.
  destruct (owned_by userId r) eqn:O; [|reflexivity].
  apply owned_by_true in O. destruct (H r Hr E O).
Qed.

Lemma no_match_missing (themeId userId : string) (tbl : list Row) :
  (forall r, In r tbl -> id r <> themeId) ->
  forall r, In r tbl ->
    matching (where_id_and_user themeId userId) r = false.
Proof.
  intros H. apply no_match_other_owner.
  intros r Hr E. destruct (H r Hr E).
Qed.

(** C1.  A caller who is not the owner of a theme gets from
    [updateTheme] and [deleteTheme] exactly what the same call gets on an
    id that is in no row: the NOT_FOUND error of the operation, and the
    table as it was. *)
Theorem update_delete_by_non_owner_as_missing
  (tbl : list Row) (themeId missingId userId lbl : string)
  (cols : option ThemeColors) (css html : option string) :
  (forall r, In r tbl -> id r = themeId -> user_id r <> Some userId) ->
  (forall r, In r tbl -> id r <> missingId) ->
  (updateTheme toTheme themeId userId lbl cols css html tbl
   = (Thrown (HttpError StatusCodes.NOT_FOUND
        "Failed to update the theme because the id couldn't be found."),
      tbl)
   /\ updateTheme toTheme missingId userId lbl cols css html tbl
      = updateTheme toTheme themeId userId lbl cols css html tbl)
  /\ (deleteTheme toTheme themeId userId tbl
      = (Thrown (HttpError StatusCodes.NOT_FOUND
           "Failed to delete the theme because the id couldn't be found."),
         tbl)
      /\ deleteTheme toTheme missingId userId tbl
         = deleteTheme toTheme themeId userId tbl).
Proof.
  intros Hother Hmissing.
  pose proof (@no_match_other_owner themeId userId tbl Hother) as H1.
  pose proof (@no_match_missing missingId userId tbl Hmissing) as H2.
  split; split.
  - apply updateTheme_no_match, H1.
  - rewrite (updateTheme_no_match _ _ lbl cols css html _ H1).
    apply updateTheme_no_match, H2.
  - apply deleteTheme_no_match, H1.
  - rewrite (deleteTheme_no_match _ _ _ H1).
    apply deleteTheme_no_match, H2.
Qed.

(** The query of [listThemes], read in two-valued logic. *)
Lemma listThemes_query (userId : string) (includeGlobal : bool)
  (tbl : list Row) :
  (if includeGlobal
   then select (where_user_or_global userId) tbl
   else select (where_user userId) tbl)
  = (result_of (filter (fun r => owned_by userId r
                                 || (includeGlobal && global r)) tbl),
     tbl).
Proof.
  unfold select.
  destruct includeGlobal; do 2 f_equal; apply filter_ext; intros r.
  - apply matching_where_user_or_global.
  - rewrite matching_where_user, orb_false_r. reflexivity.
Qed.

(** C8.  [listThemes] gives the themes owned by the user, together with
    the global ones when [includeGlobal] is set, in the order of the
    table; when there is none it throws NOT_FOUND instead of giving the
    empty list; the table is left as it was. *)
Theorem listThemes_exact (userId : string) (includeGlobal : bool)
  (tbl : list Row) :
  listThemes toTheme userId includeGlobal tbl
  = (listThemes_spec toTheme userId includeGlobal tbl, tbl).
Proof.
  unfold listThemes, listThemes_spec.
  rewrite listThemes_query, rowCount_le_0.
  destruct (filter _ tbl); reflexivity.
Qed.

Lemma visible_to_orb (userId : string) (r : Row) :
  visible_to userId r = owned_by userId r || global r.
Proof.
  unfold visible_to. destruct (global r), (owned_by userId r); reflexivity.
Qed.

Lemma getTheme_found (themeId : string) (tbl : list Row) (r : Row) :
  In r tbl -> id r = themeId ->
  exists r', In r' tbl /\ id r' = themeId
             /\ getTheme toTheme themeId tbl = (Returned (toTheme r'), tbl).
Proof.
  intros Hin Hid. unfold getTheme, select.
  rewrite rowCount_le_0.
  destruct (filter (matching (where_id themeId)) tbl) as [|r' rs] eqn:E.
  - assert (Hr : In r (filter (matching (where_id themeId)) tbl)).
    { apply filter_In. split; [exact Hin|].
      rewrite matching_where_id. apply String.eqb_eq. exact Hid. }
    rewrite E in Hr. destruct Hr.
  - assert (Hr' : In r' (filter (matching (where_id themeId)) tbl))
      by (rewrite E; left; reflexivity).
    apply filter_In in Hr'. destruct Hr' as [Hin' Hm].
    rewrite matching_where_id in Hm. apply String.eqb_eq in Hm.
    exists r'. repeat split; assumption.
Qed.

(** C4 (amended).  Whatever [listThemes] gives a user is visible to that
    user, that is global or owned by the user, and with [includeGlobal]
    set it gives every visible theme.  [getTheme] is not told who asks:
    it gives a theme stored under the id as soon as there is one,
    whoever owns it and global or not. *)
Theorem listThemes_visible_getTheme_by_id_alone :
  (forall (userId : string) (includeGlobal : bool) (tbl tbl' : list Row)
          (ts : list Theme),
      listThemes toTheme userId includeGlobal tbl = (Returned ts, tbl') ->
      tbl' = tbl
      /\ exists rs : list Row,
           ts = map toTheme rs
           /\ (forall r, In r rs ->
                 In r tbl /\ visible_to userId r = true)
           /\ (includeGlobal = true ->
               forall r, In r tbl -> visible_to userId r = true -> In r rs))
  /\ (forall (themeId : string) (tbl : list Row) (r : Row),
        In r tbl -> id r = themeId ->
        exists r', In r' tbl /\ id r' = themeId
                   /\ getTheme toTheme themeId tbl
                      = (Returned (toTheme r'), tbl)).
Proof.
  split; [|apply getTheme_found].
  intros userId includeGlobal tbl tbl' ts H.
  unfold listThemes in H. rewrite listThemes_query, rowCount_le_0 in H.
  set (wanted := filter (fun r => owned_by userId r
                                  || (includeGlobal && global r)) tbl) in *.
  assert (Hts : ts = map toTheme wanted /\ tbl' = tbl).
  { destruct wanted; inversion H; subst; split; reflexivity. }
  destruct Hts as [-> ->]. split; [reflexivity|].
  exists wanted. split; [reflexivity|]. split.
  - intros r Hr. apply filter_In in Hr. destruct Hr as [Hin Hb].
    split; [exact Hin|]. rewrite visible_to_orb.
    destruct (owned_by userId r); [reflexivity|].
    simpl in Hb. apply andb_true_iff in Hb. apply Hb.
  - intros -> r Hin Hv. apply filter_In. split; [exact Hin|].
    rewrite visible_to_orb in Hv. exact Hv.
Qed.

End ThemeServiceFacts.

(** C1, on the example table: "t1" belongs to alice, "t9" is in no row, and
    bob is the caller. *)
Lemma update_delete_by_non_owner_as_missing_example :
  let tbl := Examples.themes in
  (ThemeService.updateTheme Examples.toTheme "t1" "bob" "mine" None None None
     tbl
   = (Thrown (HttpError 404
        "Failed to update the theme because the id couldn't be found."), tbl)
   /\ ThemeService.updateTheme Examples.toTheme "t9" "bob" "mine" None None
        None tbl
      = ThemeService.updateTheme Examples.toTheme "t1" "bob" "mine" None None
          None tbl)
  /\ (ThemeService.deleteTheme Examples.toTheme "t1" "bob" tbl
      = (Thrown (HttpError 404
           "Failed to delete the theme because the id couldn't be found."),
         tbl)
      /\ ThemeService.deleteTheme Examples.toTheme "t9" "bob" tbl
         = ThemeService.deleteTheme Examples.toTheme "t1" "bob" tbl).
Proof.
  apply (@update_delete_by_non_owner_as_missing string _ Examples.toTheme
           Examples.themes "t1" "t9" "bob" "mine" None None None).
  - intros r Hr Hid. simpl in Hr.
    destruct Hr as [<-|[<-|[<-|[<-|[]]]]]; simpl in *; discriminate.
  - intros r Hr. simpl in Hr.
    destruct Hr as [<-|[<-|[<-|[<-|[]]]]]; simpl; discriminate.
Defined.

(** C4, as stated, fails on [getTheme]: the theme "t1" is not global and
    belongs to alice, so it is not visible to bob, yet [getTheme], which
    takes the id only, gives it to whoever asks. *)
Lemma getTheme_gives_private_theme_to_anyone :
  ThemeService.getTheme Examples.toTheme "t1" Examples.themes
  = (Returned (Examples.row "t1" (Some "alice") false), Examples.themes)
  /\ ThemeService.visible_to "bob" (Examples.row "t1" (Some "alice") false)
     = false.
Proof. split; reflexivity. Qed.

(** C4 (amended), on the example table: what bob is listed is visible to
    bob. *)
Lemma listThemes_visible_getTheme_by_id_alone_example :
  let ts := [Examples.row "t2" (Some "bob") false;
             Examples.row "t3" (Some "carol") true;
             Examples.row "t4" None true] in
  ThemeService.listThemes Examples.toTheme "bob" true Examples.themes
  = (Returned ts, Examples.themes)
  /\ exists rs,
       ts = map Examples.toTheme rs
       /\ (forall r, In r rs ->
             In r Examples.themes /\ ThemeService.visible_to "bob" r = true)
       /\ (true = true ->
           forall r, In r Examples.themes ->
             ThemeService.visible_to "bob" r = true -> In r rs).
Proof.
  split; [reflexivity|].
  apply (proj1 (@listThemes_visible_getTheme_by_id_alone string _
                  Examples.toTheme) "bob" true Examples.themes Examples.themes).
  reflexivity.
Defined.

(** * Properties of the user controller *)

Ltac run_handler :=
  unfold UserController.try_catch, UserController.bind, UserController.ret,
    UserController.throw, UserController.await, UserController.lift,
    UserController.bad_request, UserController.http_error_reply,
    UserController.reply_code, UserController.reply_send,
    UserController.if_mixpanel, UserController.mixpanel_call,
    UserController.translated, UserController.with_world,
    UserController.coded, UserController.replied,
    UserController.ReplyUtils_error, UserController.ReplyUtils_success in *;
  cbn [UserController.reply UserController.world
       UserController.mixpanel_log UserController.statusCode
       UserController.sent fst snd] in *.

Section UserControllerFacts.

Import UserController.

Variable World : Type.
Variable Association : Type.
Variable userService : UserService World Association.
Variable profileService : ProfileService World.
Variable config : Config.
Variable now : Z.

Local Abbreviation State := (St World Association).

(** C6.  The handlers of /user/update, /user/delete and
    /user/data-package, on any request of any body type and in any
    state, set the status NOT_IMPLEMENTED (501) and resolve to the
    generic error payload; the store and the analytics log are as they
    were. *)
Theorem stubs_not_implemented (B : Type) (request : FastifyRequest B)
  (s : State) :
  let outcome :=
    (Returned (Some (error_payload Association
                       "Sorry, this is not implemented yet." None)),
     {| reply := {| statusCode := 501; sent := sent (reply s) |};
        world := world s;
        mixpanel_log := mixpanel_log s |}) in
  (UpdateUser request s = outcome
   /\ DeleteUser request s = outcome
   /\ GetUserDataPackage request s = outcome)
  /\ forall w : World,
       let answer :=
         Sent 501 (error_payload Association
                     "Sorry, this is not implemented yet." None) in
       respond (UpdateUser request (fresh _ w)) = answer
       /\ respond (DeleteUser request (fresh _ w)) = answer
       /\ respond (GetUserDataPackage request (fresh _ w)) = answer.
Proof.
  repeat split.
Qed.

(** C10.  /user/reset-password without a token or without a password,
    and /user/set-active-profile without a newProfileId, answer 400 with
    the message "No email was provided."; nothing else changes. *)
Theorem missing_field_message_names_email :
  (forall (request : FastifyRequest ResetUserPasswordRequest.Body)
          (s : State),
      truthy (ResetUserPasswordRequest.token (body request)) = false
      \/ truthy (ResetUserPasswordRequest.password (body request)) = false ->
      ResetUserPassword userService request s
      = (Returned None,
         replied 400 (error_payload _ "No email was provided." None) s)
      /\ respond (ResetUserPassword userService request s)
         = Sent 400 (error_payload _ "No email was provided." None))
  /\ (forall (request : FastifyRequest SetActiveProfileRequest.Body)
             (s : State),
        truthy (SetActiveProfileRequest.newProfileId (body request)) = false ->
        SetActiveProfile userService profileService config request s
        = (Returned None,
           replied 400 (error_payload _ "No email was provided." None) s)
        /\ respond (SetActiveProfile userService profileService config
                      request s)
           = Sent 400 (error_payload _ "No email was provided." None)).
Proof.
  split.
  - intros request s H.
    assert (E : ResetUserPassword userService request s
                = (Returned None,
                   replied 400 (error_payload _ "No email was provided." None) s)).
    { unfold ResetUserPassword.
      destruct (truthy (ResetUserPasswordRequest.token (body request))) eqn:T.
      - destruct H as [H|H]; [discriminate|]. rewrite H. reflexivity.
      - reflexivity. }
    split; [exact E|]. rewrite E. reflexivity.
  - intros request s H.
    assert (E : SetActiveProfile userService profileService config request s
                = (Returned None,
                   replied 400 (error_payload _ "No email was provided." None) s)).
    { unfold SetActiveProfile. run_handler. rewrite H. reflexivity. }
    split; [exact E|]. rewrite E. reflexivity.
Qed.

(** *** The handle check of /user/create, outcome by outcome *)

Lemma check_handle_found (handle : string) (s : State) (p : Profile.t)
  (w' : World) :
  getProfileByHandle profileService handle false (world s)
  = (Returned (Some p), w') ->
  check_handle profileService handle s
  = (Returned (Some (Some (error_payload Association
       "The profile couldn't be added because it is already being used."
       None))),
     coded 409 (with_world s w')).
Proof.
  intros H. unfold check_handle. run_handler. rewrite H. reflexivity.
Qed.

Lemma check_handle_nothing (handle : string) (s : State) (w' : World) :
  getProfileByHandle profileService handle false (world s)
  = (Returned None, w') ->
  check_handle (Association := Association) profileService handle s
  = (Returned None, with_world s w').
Proof.
  intros H. unfold check_handle. run_handler. rewrite H. reflexivity.
Qed.

Lemma check_handle_not_found (handle m : string) (s : State) (w' : World) :
  getProfileByHandle profileService handle false (world s)
  = (Thrown (HttpError StatusCodes.NOT_FOUND m), w') ->
  check_handle (Association := Association) profileService handle s
  = (Returned None, with_world s w').
Proof.
  intros H. unfold check_handle. run_handler. rewrite H. reflexivity.
Qed.

Lemma check_handle_http_error (handle m : string) (c : Z) (s : State)
  (w' : World) :
  getProfileByHandle profileService handle false (world s)
  = (Thrown (HttpError c m), w') ->
  c <> StatusCodes.NOT_FOUND ->
  check_handle profileService handle s
  = (Returned (Some (Some (error_payload Association m
                             (Some (HttpError c m))))),
     coded c (with_world s w')).
Proof.
  intros H Hc. unfold check_handle. run_handler. rewrite H.
  apply Z.eqb_neq in Hc. rewrite Hc. reflexivity.
Qed.

Lemma check_handle_other_error (handle n : string) (s : State)
  (w' : World) :
  getProfileByHandle profileService handle false (world s)
  = (Thrown (OtherError n), w') ->
  check_handle (Association := Association) profileService handle s
  = (Returned None, with_world s w').
Proof.
  intros H. unfold check_handle. run_handler. rewrite H. reflexivity.
Qed.

Local Abbreviation create_user := (CreateUser userService profileService config now).

(** C2 (amended).  A /user/create request that carries an email and a
    password, and for whose handle the lookup [getProfileByHandle] gives
    back a profile and leaves the store as it is, is answered CONFLICT
    (409) with the message of the handler; no user, no profile and no
    active-profile association is created: the store and the analytics
    log after the request are those before it. *)
Theorem CreateUser_handle_in_use
  (request : FastifyRequest CreateUserRequest.Body) (s : State)
  (p : Profile.t) :
  truthy (CreateUserRequest.email (body request)) = true ->
  truthy (CreateUserRequest.password (body request)) = true ->
  getProfileByHandle profileService
    (CreateUserRequest.handle (body request)) false (world s)
  = (Returned (Some p), world s) ->
  let message :=
    "The profile couldn't be added because it is already being used." in
  create_user request s
  = (Returned (Some (error_payload Association message None)),
     {| reply := {| statusCode := 409; sent := sent (reply s) |};
        world := world s;
        mixpanel_log := mixpanel_log s |})
  /\ (sent (reply s) = None ->
      respond (create_user request s)
      = Sent 409 (error_payload Association message None)).
Proof.
  intros He Hp Hfound message.
  assert (E : create_user request s
              = (Returned (Some (error_payload Association message None)),
                 {| reply := {| statusCode := 409; sent := sent (reply s) |};
                    world := world s;
                    mixpanel_log := mixpanel_log s |})).
  { unfold CreateUser. rewrite He, Hp. cbn [negb].
    unfold try_catch at 1. unfold bind at 1.
    rewrite (check_handle_found _ _ Hfound). reflexivity. }
  split; [exact E|].
  intros Hs. rewrite E. unfold respond. cbn. rewrite Hs. reflexivity.
Qed.

(** C3 (amended).  On an authenticated /user/set-active-profile request
    that names a profile: when the profile is found and belongs to
    another user, the answer is UNAUTHORIZED (401) with the message of
    the handler, and [setActiveProfile] is not called; when the lookup
    of the profile throws an error carrying a status code, as for a
    profile that cannot be found, the answer has that status code. *)
Theorem SetActiveProfile_not_owner :
  (forall (request : FastifyRequest SetActiveProfileRequest.Body)
          (s : State) (p : Profile.t) (w' : World),
      truthy (SetActiveProfileRequest.newProfileId (body request)) = true ->
      getProfile profileService
        (str (SetActiveProfileRequest.newProfileId (body request)))
        (world s)
      = (Returned p, w') ->
      User.id (SetActiveProfileRequest.authUser (body request))
      <> Profile.userId p ->
      SetActiveProfile userService profileService config request s
      = (Returned None,
         replied 401
           (error_payload Association "The user doesn't own the profile."
              None)
           (with_world s w'))
      /\ respond (SetActiveProfile userService profileService config
                    request s)
         = Sent 401 (error_payload Association
                       "The user doesn't own the profile." None))
  /\ (forall (request : FastifyRequest SetActiveProfileRequest.Body)
             (s : State) (c : Z) (m : string) (w' : World),
        truthy (SetActiveProfileRequest.newProfileId (body request)) = true ->
        getProfile profileService
          (str (SetActiveProfileRequest.newProfileId (body request)))
          (world s)
        = (Thrown (HttpError c m), w') ->
        SetActiveProfile userService profileService config request s
        = (Returned (Some (error_payload Association m
                             (Some (HttpError c m)))),
           coded c (with_world s w'))
        /\ (sent (reply s) = None ->
            respond (SetActiveProfile userService profileService config
                       request s)
            = Sent c (error_payload Association m (Some (HttpError c m))))).
Proof.
  split.
  - intros request s p w' Hn Hget Hneq.
    assert (E : SetActiveProfile userService profileService config request s
                = (Returned None,
                   replied 401
                     (error_payload Association
                        "The user doesn't own the profile." None)
                     (with_world s w'))).
    { unfold SetActiveProfile. run_handler. rewrite Hn. cbn [negb].
      rewrite Hget.
      apply String.eqb_neq in Hneq. rewrite Hneq. reflexivity. }
    split; [exact E|]. rewrite E. reflexivity.
  - intros request s c m w' Hn Hget.
    assert (E : SetActiveProfile userService profileService config request s
                = (Returned (Some (error_payload Association m
                                     (Some (HttpError c m)))),
                   coded c (with_world s w'))).
    { unfold SetActiveProfile. run_handler. rewrite Hn. cbn [negb].
      rewrite Hget. reflexivity. }
    split; [exact E|].
    intros Hs. rewrite E. unfold respond. cbn. rewrite Hs. reflexivity.
Qed.

(** *** The token of /user/create *)

Lemma span_168h : jwt.span 0 false "168h" = Some (168 * 3600).
Proof. reflexivity. Qed.

Lemma sign_168h (email key : string) (clock : Z) (token : jwt.Token) :
  jwt.sign email key "168h" clock = Returned token ->
  jwt.signedWith token = key
  /\ jwt.claim_email token = email
  /\ jwt.iat token = clock
  /\ jwt.exp token = jwt.iat token + 168 * 3600.
Proof.
  unfold jwt.sign. rewrite span_168h.
  destruct (String.eqb key ""); [discriminate|].
  intros H. inversion H; subst; cbn. repeat split.
Qed.

(** C7.  Whenever /user/create resolves to [{user, activeProfile,
    token}], the user is the one [createUser] gave back for the
    submitted email, password and name, and the token is signed with
    [config.secret], carries exactly that user's email, was issued at
    the clock reading of the request and expires 168 hours, that is
    168 * 3600 seconds, later. *)
Theorem CreateUser_token
  (request : FastifyRequest CreateUserRequest.Body) (s s' : State)
  (user : User.t) (profile : Profile.t) (token : jwt.Token) :
  create_user request s
  = (Returned (Some (created_payload Association user profile token)), s') ->
  (exists w w' : World,
      createUser userService
        (str (CreateUserRequest.email (body request)))
        (str (CreateUserRequest.password (body request)))
        (CreateUserRequest.name (body request)) w
      = (Returned user, w'))
  /\ jwt.signedWith token = secret config
  /\ jwt.claim_email token = User.email user
  /\ jwt.iat token = now
  /\ jwt.exp token = jwt.iat token + 168 * 3600.
Proof.
  unfold CreateUser.
  destruct (truthy (CreateUserRequest.email (body request)));
    [|discriminate].
  destruct (truthy (CreateUserRequest.password (body request)));
    [|discriminate].
  cbn [negb]. unfold try_catch at 1. unfold bind at 1.
  destruct (check_handle profileService
              (CreateUserRequest.handle (body request)) s)
    as [[early|e] s1] eqn:Hcheck.
  2: { destruct e; cbn; discriminate. }
  destruct early as [v|].
  { (* an early return is an error payload *)
    unfold check_handle in Hcheck. run_handler.
    destruct (getProfileByHandle profileService
                (CreateUserRequest.handle (body request)) false (world s))
      as [[[q|]|[c m|n]] w1]; cbn in Hcheck;
      try destruct (c =? StatusCodes.NOT_FOUND); cbn in Hcheck;
      inversion Hcheck; subst; cbn; discriminate. }
  run_handler.
  destruct (createUser userService
              (str (CreateUserRequest.email (body request)))
              (str (CreateUserRequest.password (body request)))
              (CreateUserRequest.name (body request)) (world s1))
    as [[u|e] w2] eqn:Hu.
  2: { destruct e; cbn; discriminate. }
  cbn [world reply mixpanel_log].
  destruct (createProfile profileService (User.id u)
              (CreateUserRequest.handle (body request)) w2)
    as [[pr|e] w3] eqn:Hp.
  2: { destruct e; cbn; discriminate. }
  cbn [world reply mixpanel_log].
  destruct (setActiveProfile userService (User.id u) (Profile.id pr) w3)
    as [[a|e] w4] eqn:Ha.
  2: { destruct e; cbn; discriminate. }
  destruct (jwt.sign (User.email u) (secret config) "168h" now)
    as [t|e] eqn:Hsign.
  2: { destruct e; cbn; discriminate. }
  intros H.
  assert (Hpayload : u = user /\ t = token).
  { destruct (mixpanel config); cbn in H; inversion H; subst; split;
      reflexivity. }
  destruct Hpayload as [-> ->].
  split; [exists (world s1), w2; exact Hu|].
  apply sign_168h in Hsign. exact Hsign.
Qed.

(** *** The closing catch clause, call by call *)

Lemma LoginUser_throws (request : FastifyRequest LoginUserRequest.Body)
  (s : State) (e : Exn) (w' : World) :
  truthy (LoginUserRequest.email (body request)) = true ->
  truthy (LoginUserRequest.password (body request)) = true ->
  loginUser userService
    (str (LoginUserRequest.email (body request)))
    (str (LoginUserRequest.password (body request))) (world s)
  = (Thrown e, w') ->
  LoginUser userService config request s = translated e (with_world s w').
Proof.
  intros He Hp H. unfold LoginUser. rewrite He, Hp. cbn [negb]. run_handler.
  rewrite H. destruct e; reflexivity.
Qed.

Lemma CreateUser_check_throws
  (request : FastifyRequest CreateUserRequest.Body) (s : State)
  (c : Z) (m : string) (w' : World) :
  truthy (CreateUserRequest.email (body request)) = true ->
  truthy (CreateUserRequest.password (body request)) = true ->
  getProfileByHandle profileService
    (CreateUserRequest.handle (body request)) false (world s)
  = (Thrown (HttpError c m), w') ->
  c <> StatusCodes.NOT_FOUND ->
  create_user request s = translated (HttpError c m) (with_world s w').
Proof.
  intros He Hp H Hc. unfold CreateUser. rewrite He, Hp. cbn [negb].
  unfold try_catch at 1. unfold bind at 1.
  rewrite (check_handle_http_error _ _ H Hc). reflexivity.
Qed.

Lemma CreateUser_createUser_throws
  (request : FastifyRequest CreateUserRequest.Body) (s s1 : State)
  (e : Exn) (w' : World) :
  truthy (CreateUserRequest.email (body request)) = true ->
  truthy (CreateUserRequest.password (body request)) = true ->
  check_handle profileService (CreateUserRequest.handle (body request)) s
  = (Returned None, s1) ->
  createUser userService
    (str (CreateUserRequest.email (body request)))
    (str (CreateUserRequest.password (body request)))
    (CreateUserRequest.name (body request)) (world s1)
  = (Thrown e, w') ->
  create_user request s = translated e (with_world s1 w').
Proof.
  intros He Hp Hcheck H. unfold CreateUser. rewrite He, Hp. cbn [negb].
  unfold try_catch at 1. unfold bind at 1. rewrite Hcheck.
  run_handler. rewrite H. destruct e; reflexivity.
Qed.

Lemma CreateUser_createProfile_throws
  (request : FastifyRequest CreateUserRequest.Body) (s s1 : State)
  (user : User.t) (e : Exn) (w2 w' : World) :
  truthy (CreateUserRequest.email (body request)) = true ->
  truthy (CreateUserRequest.password (body request)) = true ->
  check_handle profileService (CreateUserRequest.handle (body request)) s
  = (Returned None, s1) ->
  createUser userService
    (str (CreateUserRequest.email (body request)))
    (str (CreateUserRequest.password (body request)))
    (CreateUserRequest.name (body request)) (world s1)
  = (Returned user, w2) ->
  createProfile profileService (User.id user)
    (CreateUserRequest.handle (body request)) w2
  = (Thrown e, w') ->
  create_user request s = translated e (with_world s1 w').
Proof.
  intros He Hp Hcheck Hu H. unfold CreateUser. rewrite He, Hp. cbn [negb].
  unfold try_catch at 1. unfold bind at 1. rewrite Hcheck.
  run_handler. rewrite Hu. cbn [world]. rewrite H.
  destruct e; reflexivity.
Qed.

Lemma CreateUser_setActiveProfile_throws
  (request : FastifyRequest CreateUserRequest.Body) (s s1 : State)
  (user : User.t) (profile : Profile.t) (e : Exn) (w2 w3 w' : World) :
  truthy (CreateUserRequest.email (body request)) = true ->
  truthy (CreateUserRequest.password (body request)) = true ->
  check_handle profileService (CreateUserRequest.handle (body request)) s
  = (Returned None, s1) ->
  createUser userService
    (str (CreateUserRequest.email (body request)))
    (str (CreateUserRequest.password (body request)))
    (CreateUserRequest.name (body request)) (world s1)
  = (Returned user, w2) ->
  createProfile profileService (User.id user)
    (CreateUserRequest.handle (body request)) w2
  = (Returned profile, w3) ->
  setActiveProfile userService (User.id user) (Profile.id profile) w3
  = (Thrown e, w') ->
  create_user request s = translated e (with_world s1 w').
Proof.
  intros He Hp Hcheck Hu Hpr H. unfold CreateUser. rewrite He, Hp.
  cbn [negb]. unfold try_catch at 1. unfold bind at 1. rewrite Hcheck.
  run_handler. rewrite Hu. cbn [world]. rewrite Hpr. cbn [world].
  rewrite H. destruct e; reflexivity.
Qed.

Lemma UserRequestResetPassword_throws
  (request : FastifyRequest UserRequestResetPasswordRequest.Body)
  (s : State) (e : Exn) (w' : World) :
  truthy (UserRequestResetPasswordRequest.email (body request)) = true ->
  sendPasswordResetEmail userService
    (str (UserRequestResetPasswordRequest.email (body request))) (world s)
  = (Thrown e, w') ->
  UserRequestResetPassword userService config request s
  = translated e (with_world s w').
Proof.
  intros He H. unfold UserRequestResetPassword. rewrite He. cbn [negb]. run_handler.
  rewrite H. destruct e; reflexivity.
Qed.

Lemma ResetUserPassword_throws
  (request : FastifyRequest ResetUserPasswordRequest.Body)
  (s : State) (e : Exn) (w' : World) :
  truthy (ResetUserPasswordRequest.token (body request)) = true ->
  truthy (ResetUserPasswordRequest.password (body request)) = true ->
  setPasswordWithToken userService
    (str (ResetUserPasswordRequest.token (body request)))
    (str (ResetUserPasswordRequest.password (body request))) (world s)
  = (Thrown e, w') ->
  ResetUserPassword userService request s = translated e (with_world s w').
Proof.
  intros Ht Hp H. unfold ResetUserPassword. rewrite Ht, Hp. cbn [negb]. run_handler.
  rewrite H. destruct e; reflexivity.
Qed.

Lemma SetActiveProfile_getProfile_throws
  (request : FastifyRequest SetActiveProfileRequest.Body)
  (s : State) (e : Exn) (w' : World) :
  truthy (SetActiveProfileRequest.newProfileId (body request)) = true ->
  getProfile profileService
    (str (SetActiveProfileRequest.newProfileId (body request))) (world s)
  = (Thrown e, w') ->
  SetActiveProfile userService profileService config request s
  = translated e (with_world s w').
Proof.
  intros Hn H. unfold SetActiveProfile. run_handler. rewrite Hn.
  cbn [negb]. rewrite H. destruct e; reflexivity.
Qed.

(** The last call of /user/set-active-profile is returned without
    [await]: when it rejects, the closing catch clause is not run and
    the error leaves the handler as it is, status code or not. *)
Lemma SetActiveProfile_rejection_passes_catch
  (request : FastifyRequest SetActiveProfileRequest.Body)
  (s : State) (p : Profile.t) (e : Exn) (w1 w' : World) :
  truthy (SetActiveProfileRequest.newProfileId (body request)) = true ->
  getProfile profileService
    (str (SetActiveProfileRequest.newProfileId (body request))) (world s)
  = (Returned p, w1) ->
  User.id (SetActiveProfileRequest.authUser (body request))
  = Profile.userId p ->
  setActiveProfile userService
    (User.id (SetActiveProfileRequest.authUser (body request)))
    (str (SetActiveProfileRequest.newProfileId (body request))) w1
  = (Thrown e, w') ->
  fst (SetActiveProfile userService profileService config request s)
  = Thrown e.
Proof.
  intros Hn Hget Hown H. unfold SetActiveProfile. run_handler.
  rewrite Hn. cbn [negb]. rewrite Hget.
  apply String.eqb_eq in Hown. rewrite Hown. cbn [negb].
  destruct (mixpanel config); cbn; rewrite H; reflexivity.
Qed.

(** C9 (amended).  In every handler that calls a service, an error
    thrown by an awaited call is handled by the closing catch clause: an
    error that carries a status code becomes the resolved value of the
    handler, an error-shaped body under that status code, and any other
    error is thrown out of the handler.  This holds for the call of
    /user/login, the three creation calls of /user/create, the calls of
    /user/request-reset-password and /user/reset-password, and the
    profile lookup of /user/set-active-profile.  In the handle check of
    /user/create it holds for the errors that carry a status code other
    than NOT_FOUND; a NOT_FOUND error there is absorbed and the creation
    goes on. *)
Theorem awaited_errors_translated :
  (forall request s e w',
      truthy (LoginUserRequest.email (body request)) = true ->
      truthy (LoginUserRequest.password (body request)) = true ->
      loginUser userService
        (str (LoginUserRequest.email (body request)))
        (str (LoginUserRequest.password (body request))) (world s)
      = (Thrown e, w') ->
      LoginUser userService config request s
      = translated e (with_world s w'))
  /\ (forall request s c m w',
        truthy (CreateUserRequest.email (body request)) = true ->
        truthy (CreateUserRequest.password (body request)) = true ->
        getProfileByHandle profileService
          (CreateUserRequest.handle (body request)) false (world s)
        = (Thrown (HttpError c m), w') ->
        (c <> StatusCodes.NOT_FOUND ->
         create_user request s
         = translated (HttpError c m) (with_world s w'))
        /\ (c = StatusCodes.NOT_FOUND ->
            check_handle (Association := Association) profileService
              (CreateUserRequest.handle (body request)) s
            = (Returned None, with_world s w')))
  /\ (forall request s s1 e w',
        truthy (CreateUserRequest.email (body request)) = true ->
        truthy (CreateUserRequest.password (body request)) = true ->
        check_handle profileService
          (CreateUserRequest.handle (body request)) s
        = (Returned None, s1) ->
        createUser userService
          (str (CreateUserRequest.email (body request)))
          (str (CreateUserRequest.password (body request)))
          (CreateUserRequest.name (body request)) (world s1)
        = (Thrown e, w') ->
        create_user request s = translated e (with_world s1 w'))
  /\ (forall request s s1 user e w2 w',
        truthy (CreateUserRequest.email (body request)) = true ->
        truthy (CreateUserRequest.password (body request)) = true ->
        check_handle profileService
          (CreateUserRequest.handle (body request)) s
        = (Returned None, s1) ->
        createUser userService
          (str (CreateUserRequest.email (body request)))
          (str (CreateUserRequest.password (body request)))
          (CreateUserRequest.name (body request)) (world s1)
        = (Returned user, w2) ->
        createProfile profileService (User.id user)
          (CreateUserRequest.handle (body request)) w2
        = (Thrown e, w') ->
        create_user request s = translated e (with_world s1 w'))
  /\ (forall request s s1 user profile e w2 w3 w',
        truthy (CreateUserRequest.email (body request)) = true ->
        truthy (CreateUserRequest.password (body request)) = true ->
        check_handle profileService
          (CreateUserRequest.handle (body request)) s
        = (Returned None, s1) ->
        createUser userService
          (str (CreateUserRequest.email (body request)))
          (str (CreateUserRequest.password (body request)))
          (CreateUserRequest.name (body request)) (world s1)
        = (Returned user, w2) ->
        createProfile profileService (User.id user)
          (CreateUserRequest.handle (body request)) w2
        = (Returned profile, w3) ->
        setActiveProfile userService (User.id user) (Profile.id profile) w3
        = (Thrown e, w') ->
        create_user request s = translated e (with_world s1 w'))
  /\ (forall request s e w',
        truthy (UserRequestResetPasswordRequest.email (body request))
        = true ->
        sendPasswordResetEmail userService
          (str (UserRequestResetPasswordRequest.email (body request)))
          (world s)
        = (Thrown e, w') ->
        UserRequestResetPassword userService config request s
        = translated e (with_world s w'))
  /\ (forall request s e w',
        truthy (ResetUserPasswordRequest.token (body request)) = true ->
        truthy (ResetUserPasswordRequest.password (body request)) = true ->
        setPasswordWithToken userService
          (str (ResetUserPasswordRequest.token (body request)))
          (str (ResetUserPasswordRequest.password (body request)))
          (world s)
        = (Thrown e, w') ->
        ResetUserPassword userService request s
        = translated e (with_world s w'))
  /\ (forall request s e w',
        truthy (SetActiveProfileRequest.newProfileId (body request))
        = true ->
        getProfile profileService
          (str (SetActiveProfileRequest.newProfileId (body request)))
          (world s)
        = (Thrown e, w') ->
        SetActiveProfile userService profileService config request s
        = translated e (with_world s w')).
Proof.
  split; [exact LoginUser_throws|].
  split.
  { intros request s c m w' He Hp H. split.
    - apply CreateUser_check_throws; assumption.
    - intros ->. apply (check_handle_not_found _ _ H). }
  split; [exact CreateUser_createUser_throws|].
  split; [exact CreateUser_createProfile_throws|].
  split; [exact CreateUser_setActiveProfile_throws|].
  split; [exact UserRequestResetPassword_throws|].
  split; [exact ResetUserPassword_throws|].
  exact SetActiveProfile_getProfile_throws.
Qed.

End UserControllerFacts.

(** * The handlers on the example store *)

Local Abbreviation CreateUser_on_store :=
  (UserController.CreateUser Store.userService Store.profileService
     Examples.config Examples.clock).

Local Abbreviation SetActiveProfile_on_store :=
  (UserController.SetActiveProfile Store.userService Store.profileService
     Examples.config).

Local Abbreviation no_email :=
  (UserController.error_payload User.t "No email was provided." None).

(** C2, as stated, fails: the handle "abee" is in use, and a request for it
    that carries no email is answered 400, not 409. *)
Lemma CreateUser_handle_in_use_without_email :
  Store.getProfileByHandle "abee" false Examples.store
  = (Returned (Some Examples.abee), Examples.store)
  /\ UserController.respond
       (CreateUser_on_store
          (Examples.create_request None (Some "z") "C" "abee") Examples.start)
     = UserController.Sent 400 no_email.
Proof. split; reflexivity. Qed.

(** C2 (amended), on the example store: carol asks for the handle "abee",
    which alice has. *)
Lemma CreateUser_handle_in_use_example :
  let request :=
    Examples.create_request (Some "c@b.com") (Some "z") "C" "abee" in
  let message :=
    "The profile couldn't be added because it is already being used." in
  CreateUser_on_store request Examples.start
  = (Returned (Some (UserController.error_payload User.t message None)),
     {| UserController.reply :=
          {| UserController.statusCode := 409;
             UserController.sent := None |};
        UserController.world := Examples.store;
        UserController.mixpanel_log := [] |})
  /\ (UserController.sent (UserController.reply Examples.start) = None ->
      UserController.respond (CreateUser_on_store request Examples.start)
      = UserController.Sent 409
          (UserController.error_payload User.t message None)).
Proof.
  apply (@CreateUser_handle_in_use Store.t User.t Store.userService
           Store.profileService Examples.config Examples.clock
           (Examples.create_request (Some "c@b.com") (Some "z") "C" "abee")
           Examples.start Examples.abee); reflexivity.
Defined.

(** C3, as stated, fails: no profile "profile:nope" exists, so alice does
    not own it, and her request to make it active is answered 404, not
    401. *)
Lemma SetActiveProfile_missing_profile_is_404 :
  Store.find_profile "profile:nope" Examples.store = None
  /\ UserController.respond
       (SetActiveProfile_on_store
          (Examples.set_active_request Examples.alice (Some "profile:nope"))
          Examples.start)
     = UserController.Sent 404
         (UserController.error_payload User.t
            "The profile couldn't be found."
            (Some (HttpError 404 "The profile couldn't be found."))).
Proof. split; reflexivity. Qed.

(** C3 (amended), on the example store: bob names the profile of alice,
    and alice names a profile that cannot be found. *)
Lemma SetActiveProfile_not_owner_example :
  (let request :=
     Examples.set_active_request Examples.bob (Some "profile:abee") in
   let payload :=
     UserController.error_payload User.t "The user doesn't own the profile."
       None in
   SetActiveProfile_on_store request Examples.start
   = (Returned None,
      UserController.replied 401 payload
        (UserController.with_world Examples.start Examples.store))
   /\ UserController.respond
        (SetActiveProfile_on_store request Examples.start)
      = UserController.Sent 401 payload)
  /\ (let request :=
        Examples.set_active_request Examples.alice (Some "profile:nope") in
      let payload :=
        UserController.error_payload User.t "The profile couldn't be found."
          (Some (HttpError 404 "The profile couldn't be found.")) in
      SetActiveProfile_on_store request Examples.start
      = (Returned (Some payload),
         UserController.coded 404
           (UserController.with_world Examples.start Examples.store))
      /\ (UserController.sent (UserController.reply Examples.start) = None ->
          UserController.respond
            (SetActiveProfile_on_store request Examples.start)
          = UserController.Sent 404 payload)).
Proof.
  destruct (@SetActiveProfile_not_owner Store.t User.t Store.userService
              Store.profileService Examples.config) as [Hother Hthrown].
  split.
  - apply (Hother
             (Examples.set_active_request Examples.bob (Some "profile:abee"))
             Examples.start Examples.abee Examples.store).
    + reflexivity.
    + reflexivity.
    + discriminate.
  - apply (Hthrown
             (Examples.set_active_request Examples.alice (Some "profile:nope"))
             Examples.start 404 "The profile couldn't be found."
             Examples.store); reflexivity.
Defined.

(** C5, at the failing input: the handle "abee" is in use and the handle
    lookup fails with an error that carries no status code.  The claim
    asks for an error response and no creation; the handler drops the
    error, creates the user and a second profile under the handle in use,
    and answers 200. *)
Theorem CreateUser_drops_lookup_failure :
  let result :=
    UserController.CreateUser Store.userService
      Store.unreachableProfileService Examples.config Examples.clock
      (Examples.create_request (Some "c@b.com") (Some "z") "C" "abee")
      Examples.start in
  Store.find_profile_by_handle "abee" Examples.store = Some Examples.abee
  /\ UserController.getProfileByHandle Store.unreachableProfileService
       "abee" false Examples.store
     = (Thrown (OtherError "ECONNREFUSED"), Examples.store)
  /\ UserController.respond result
     = UserController.Sent 200
         (UserController.created_payload User.t Examples.carol
            (Examples.profile_of_carol "abee") Examples.token_of_carol)
  /\ Store.profiles (UserController.world (snd result))
     = [Examples.abee; Examples.profile_of_carol "abee"]
  /\ List.length (Store.users (UserController.world (snd result))) = 3%nat.
Proof. repeat split. Qed.

(** C7, on the example store: carol registers under a free handle. *)
Lemma CreateUser_token_example :
  let run :=
    CreateUser_on_store
      (Examples.create_request (Some "c@b.com") (Some "z") "C" "newbie")
      Examples.start in
  run = (Returned (Some (UserController.created_payload User.t Examples.carol
                           (Examples.profile_of_carol "newbie")
                           Examples.token_of_carol)), snd run)
  /\ ((exists w w',
          Store.createUser "c@b.com" "z" "C" w = (Returned Examples.carol, w'))
      /\ jwt.signedWith Examples.token_of_carol = "s3cret"
      /\ jwt.claim_email Examples.token_of_carol = "c@b.com"
      /\ jwt.iat Examples.token_of_carol = Examples.clock
      /\ jwt.exp Examples.token_of_carol
         = jwt.iat Examples.token_of_carol + 168 * 3600).
Proof.
  split; [reflexivity|].
  apply (@CreateUser_token Store.t User.t Store.userService
           Store.profileService Examples.config Examples.clock
           (Examples.create_request (Some "c@b.com") (Some "z") "C" "newbie")
           Examples.start
           (snd (CreateUser_on_store
                   (Examples.create_request (Some "c@b.com") (Some "z") "C"
                      "newbie")
                   Examples.start))
           Examples.carol (Examples.profile_of_carol "newbie")
           Examples.token_of_carol).
  reflexivity.
Defined.

(** C9, as stated, fails: the handle "newbie" is free, so the handle lookup
    of /user/create throws an error that carries the status code 404; the
    handler does not answer 404 with an error-shaped body, it answers 200
    with the created user. *)
Lemma CreateUser_absorbs_not_found :
  Store.getProfileByHandle "newbie" false Examples.store
  = (Thrown (HttpError 404 "The profile couldn't be found."), Examples.store)
  /\ UserController.respond
       (CreateUser_on_store
          (Examples.create_request (Some "c@b.com") (Some "z") "C" "newbie")
          Examples.start)
     = UserController.Sent 200
         (UserController.created_payload User.t Examples.carol
            (Examples.profile_of_carol "newbie") Examples.token_of_carol).
Proof. split; reflexivity. Qed.

(** C10, on the example store: a reset without a token, a reset without a
    password, and a set-active-profile without a profile id. *)
Lemma missing_field_message_names_email_example :
  UserController.respond
    (UserController.ResetUserPassword Store.userService
       (Examples.reset_request None (Some "z")) Examples.start)
  = UserController.Sent 400 no_email
  /\ UserController.respond
       (UserController.ResetUserPassword Store.userService
          (Examples.reset_request (Some "reset:a@b.com") None) Examples.start)
     = UserController.Sent 400 no_email
  /\ UserController.respond
       (SetActiveProfile_on_store
          (Examples.set_active_request Examples.alice None) Examples.start)
     = UserController.Sent 400 no_email.
Proof.
  destruct (@missing_field_message_names_email Store.t User.t
              Store.userService Store.profileService Examples.config)
    as [Hreset Hactive].
  split; [|split].
  - apply (Hreset (Examples.reset_request None (Some "z")) Examples.start).
    left. reflexivity.
  - apply (Hreset (Examples.reset_request (Some "reset:a@b.com") None)
             Examples.start).
    right. reflexivity.
  - apply (Hactive (Examples.set_active_request Examples.alice None)
             Examples.start).
    reflexivity.
Defined.

(** C9 (amended), on the example store: one failing call for each of the
    calls the theorem covers. *)
Lemma awaited_errors_translated_example :
  let unavailable := HttpError 503 "The database is unavailable." in
  let reset := OtherError "ECONNRESET" in
  let newbie :=
    Examples.create_request (Some "c@b.com") (Some "z") "C" "newbie" in
  let here := UserController.with_world Examples.start Examples.store in
  UserController.LoginUser Store.userService Examples.config
    (Examples.login_request (Some "a@b.com") (Some "wrong")) Examples.start
  = UserController.translated
      (HttpError 401 "The password is incorrect.") here
  /\ UserController.CreateUser Store.userService
       (Store.profileServiceWith (fun _ _ => Store.rejects unavailable)
          Store.createProfile)
       Examples.config Examples.clock newbie Examples.start
     = UserController.translated unavailable here
  /\ UserController.CreateUser
       (Store.userServiceWith (fun _ _ _ => Store.rejects reset)
          Store.setActiveProfile)
       Store.profileService Examples.config Examples.clock newbie
       Examples.start
     = UserController.translated reset here
  /\ UserController.CreateUser Store.userService
       (Store.profileServiceWith Store.getProfileByHandle
          (fun _ _ => Store.rejects unavailable))
       Examples.config Examples.clock newbie Examples.start
     = UserController.translated unavailable
         (UserController.with_world here
            (snd (Store.createUser "c@b.com" "z" "C" Examples.store)))
  /\ UserController.CreateUser
       (Store.userServiceWith Store.createUser
          (fun _ _ => Store.rejects unavailable))
       Store.profileService Examples.config Examples.clock newbie
       Examples.start
     = UserController.translated unavailable
         (UserController.with_world here
            (snd (Store.createProfile "user:c@b.com" "newbie"
                    (snd (Store.createUser "c@b.com" "z" "C"
                            Examples.store)))))
  /\ UserController.UserRequestResetPassword Store.userService
       Examples.config (Examples.request_reset_request (Some "z@b.com"))
       Examples.start
     = UserController.translated
         (HttpError 404 "The user couldn't be found.") here
  /\ UserController.ResetUserPassword Store.userService
       (Examples.reset_request (Some "reset:z@b.com") (Some "new"))
       Examples.start
     = UserController.translated
         (HttpError 404 "The reset token couldn't be found.") here
  /\ SetActiveProfile_on_store
       (Examples.set_active_request Examples.alice (Some "profile:nope"))
       Examples.start
     = UserController.translated
         (HttpError 404 "The profile couldn't be found.") here.
Proof.
  intros unavailable reset newbie here.
  split.
  { apply (proj1 (@awaited_errors_translated Store.t User.t
                    Store.userService Store.profileService Examples.config
                    Examples.clock)); reflexivity. }
  split.
  { apply (proj1 (proj2 (@awaited_errors_translated Store.t User.t
                    Store.userService
                    (Store.profileServiceWith
                       (fun _ _ => Store.rejects unavailable)
                       Store.createProfile)
                    Examples.config Examples.clock))
             newbie Examples.start 503 "The database is unavailable."
             Examples.store); try reflexivity.
    discriminate. }
  split.
  { apply (proj1 (proj2 (proj2 (@awaited_errors_translated Store.t User.t
                    (Store.userServiceWith
                       (fun _ _ _ => Store.rejects reset)
                       Store.setActiveProfile)
                    Store.profileService Examples.config Examples.clock))));
      reflexivity. }
  split.
  { apply (proj1 (proj2 (proj2 (proj2 (@awaited_errors_translated Store.t
                    User.t Store.userService
                    (Store.profileServiceWith Store.getProfileByHandle
                       (fun _ _ => Store.rejects unavailable))
                    Examples.config Examples.clock))))
             newbie Examples.start here Examples.carol unavailable
             (snd (Store.createUser "c@b.com" "z" "C" Examples.store))
             (snd (Store.createUser "c@b.com" "z" "C" Examples.store)));
      reflexivity. }
  split.
  { apply (proj1 (proj2 (proj2 (proj2 (proj2 (@awaited_errors_translated
                    Store.t User.t
                    (Store.userServiceWith Store.createUser
                       (fun _ _ => Store.rejects unavailable))
                    Store.profileService Examples.config Examples.clock)))))
             newbie Examples.start here Examples.carol
             (Examples.profile_of_carol "newbie") unavailable
             (snd (Store.createUser "c@b.com" "z" "C" Examples.store))
             (snd (Store.createProfile "user:c@b.com" "newbie"
                     (snd (Store.createUser "c@b.com" "z" "C"
                             Examples.store))))
             (snd (Store.createProfile "user:c@b.com" "newbie"
                     (snd (Store.createUser "c@b.com" "z" "C"
                             Examples.store)))));
      reflexivity. }
  split.
  { apply (proj1 (proj2 (proj2 (proj2 (proj2 (proj2
             (@awaited_errors_translated Store.t User.t Store.userService
                Store.profileService Examples.config Examples.clock)))))));
      reflexivity. }
  split.
  { apply (proj1 (proj2 (proj2 (proj2 (proj2 (proj2 (proj2
             (@awaited_errors_translated Store.t User.t Store.userService
                Store.profileService Examples.config Examples.clock))))))));
      reflexivity. }
  apply (proj2 (proj2 (proj2 (proj2 (proj2 (proj2 (proj2
           (@awaited_errors_translated Store.t User.t Store.userService
              Store.profileService Examples.config Examples.clock))))))));
    reflexivity.
Defined.

(** * Further properties of the theme service *)

Section ThemeServiceOperations.

Import ThemeService.

Variable ThemeColors : Type.
Variable Theme : Type.
Variable toTheme : DbTheme ThemeColors -> Theme.

Local Abbreviation Row := (DbTheme ThemeColors).

(** The test on [rowCount] followed by [rows[0]], on the rows selected. *)
Lemma guarded_first_row (rs tbl : list Row) (e : Exn) :
  (if rowCount (result_of rs) <=? 0
   then (Thrown e, tbl)
   else (first_row toTheme (result_of rs), tbl))
  = (match rs with
     | [] => Thrown e
     | r :: _ => Returned (toTheme r)
     end, tbl).
Proof.
  rewrite rowCount_le_0. destruct rs; reflexivity.
Qed.

Lemma filter_first_is_find (f : Row -> bool) (tbl : list Row) :
  match filter f tbl with
  | [] => None
  | r :: _ => Some r
  end = find f tbl.
Proof.
  induction tbl as [|r tbl IH]; [reflexivity|].
  simpl. destruct (f r); [reflexivity|exact IH].
Qed.

Lemma find_none_iff (f : Row -> bool) (tbl : list Row) :
  find f tbl = None <-> forall r, In r tbl -> f r = false.
Proof.
  split.
  - intros H r Hr. apply (find_none _ _ H _ Hr).
  - induction tbl as [|r tbl IH]; intros H; [reflexivity|].
    simpl. rewrite (H r (or_introl eq_refl)).
    apply IH. intros r' Hr'. apply H. right. exact Hr'.
Qed.

(** X1.  [getTheme] gives the first row of the table stored under the id,
    converted, and throws NOT_FOUND exactly when no row has the id; the
    table is never changed. *)
Theorem getTheme_first_row_with_id (themeId : string) (tbl : list Row) :
  getTheme toTheme themeId tbl
  = (match find (fun r => String.eqb (id r) themeId) tbl with
     | Some r => Returned (toTheme r)
     | None => Thrown (HttpError 404 "The theme couldn't be found.")
     end, tbl)
  /\ (fst (getTheme toTheme themeId tbl)
      = Thrown (HttpError 404 "The theme couldn't be found.")
      <-> forall r, In r tbl -> id r <> themeId).
Proof.
  assert (E : getTheme toTheme themeId tbl
              = (match find (fun r => String.eqb (id r) themeId) tbl with
                 | Some r => Returned (toTheme r)
                 | None => Thrown (HttpError 404 "The theme couldn't be found.")
                 end, tbl)).
  { unfold getTheme, select. rewrite guarded_first_row.
    rewrite (filter_ext _ _ (matching_where_id themeId)).
    rewrite <- filter_first_is_find.
    destruct (filter _ tbl); reflexivity. }
  split; [exact E|].
  rewrite E. cbn [fst].
  destruct (find (fun r => String.eqb (id r) themeId) tbl) as [r|] eqn:F.
  - split; [discriminate|].
    intros H. apply find_some in F. destruct F as [Hin Hid].
    apply String.eqb_eq in Hid. destruct (H r Hin Hid).
  - split; [|reflexivity].
    intros _ r Hr Hid.
    pose proof (find_none _ _ F r Hr) as Hf. cbn in Hf.
    apply String.eqb_neq in Hf. exact (Hf Hid).
Qed.

(** *** What an update keeps *)

Lemma update_keeps (A : Type) (key : Row -> A) (set : Row -> Row)
  (w : Where ThemeColors) (tbl : list Row) :
  (forall r, key (set r) = key r) ->
  map key (snd (update set w tbl)) = map key tbl.
Proof.
  intros Hkey. unfold update. cbn [snd].
  induction tbl as [|r tbl IH]; [reflexivity|].
  simpl. rewrite IH. f_equal.
  destruct (matching w r); [apply Hkey|reflexivity].
Qed.

Lemma updateTheme_table (themeId userId lbl : string)
  (cols : option ThemeColors) (css html : option string) (tbl : list Row) :
  snd (updateTheme toTheme themeId userId lbl cols css html tbl)
  = snd (update (set_content lbl cols css html)
                (where_id_and_user themeId userId) tbl).
Proof.
  unfold updateTheme.
  destruct (update _ _ tbl) as [q tbl'].
  destruct (rowCount q <=? 0); reflexivity.
Qed.

(** X3.  [updateTheme], whether it succeeds or not, adds no row, removes
    none, and leaves to every row its id, its owner and its global flag:
    seen through these three columns, the rows after the update are the
    rows before it, each as many times, in whatever order the table lists
    them.  It changes neither who owns a theme nor who sees it. *)
Theorem updateTheme_keeps_identity_and_visibility
  (themeId userId lbl : string) (cols : option ThemeColors)
  (css html : option string) (tbl : list Row) :
  let tbl' := snd (updateTheme toTheme themeId userId lbl cols css html tbl) in
  Permutation (map (fun r => (id r, user_id r, global r)) tbl')
              (map (fun r => (id r, user_id r, global r)) tbl).
Proof.
  cbn zeta. rewrite updateTheme_table.
  rewrite (update_keeps (fun r => (id r, user_id r, global r))
             (set_content lbl cols css html)
             (where_id_and_user themeId userId) tbl).
  - apply Permutation_refl.
  - reflexivity.
Qed.

Lemma matching_true_iff (themeId userId : string) (r : Row) :
  matching (where_id_and_user themeId userId) r = true
  <-> id r = themeId /\ user_id r = Some userId.
Proof.
  rewrite matching_where_id_and_user, andb_true_iff, String.eqb_eq,
    owned_by_true. reflexivity.
Qed.

(** X4.  [updateTheme] gives the first row that has the id and the caller
    as owner, converted, with the new label, palette, stylesheet and
    markup, and throws NOT_FOUND when there is none.  Afterwards every row
    that had the id and the owner is in the table with the new content,
    every row with that id and owner carries the new content, and every
    other row is still there as it was. *)
Theorem updateTheme_by_owner
  (themeId userId lbl : string) (cols : option ThemeColors)
  (css html : option string) (tbl : list Row) :
  let result := updateTheme toTheme themeId userId lbl cols css html tbl in
  fst result
  = match find (fun r => String.eqb (id r) themeId && owned_by userId r) tbl
    with
    | Some r0 => Returned (toTheme (set_content lbl cols css html r0))
    | None =>
        Thrown (HttpError 404
          "Failed to update the theme because the id couldn't be found.")
    end
  /\ (forall r, In r tbl ->
        id r = themeId -> user_id r = Some userId ->
        In (set_content lbl cols css html r) (snd result))
  /\ (forall r', In r' (snd result) ->
        id r' = themeId -> user_id r' = Some userId ->
        label r' = lbl /\ colors r' = cols
        /\ custom_css r' = css /\ custom_html r' = html)
  /\ (forall r, In r tbl ->
        ~ (id r = themeId /\ user_id r = Some userId) -> In r (snd result)).
Proof.
  intros result. split; [|split; [|split]].
  - unfold result, updateTheme, update. rewrite guarded_first_row. cbn [fst].
    rewrite (filter_ext _ _ (matching_where_id_and_user themeId userId)).
    rewrite <- filter_first_is_find.
    destruct (filter _ tbl); reflexivity.
  - intros r Hin Hid Hown. unfold result.
    rewrite updateTheme_table. unfold update. cbn [snd].
    apply in_map_iff. exists r. split; [|exact Hin].
    assert (Hm : matching (where_id_and_user themeId userId) r = true)
      by (apply matching_true_iff; split; assumption).
    rewrite Hm. reflexivity.
  - intros r' Hr' Hid' Hown'. unfold result in Hr'.
    rewrite updateTheme_table in Hr'. unfold update in Hr'. cbn [snd] in Hr'.
    apply in_map_iff in Hr'. destruct Hr' as [x [Hx Hinx]].
    destruct (matching (where_id_and_user themeId userId) x) eqn:Mx.
    + subst r'. repeat split.
    + subst r'.
      assert (Mt : matching (where_id_and_user themeId userId) x = true)
        by (apply matching_true_iff; split; assumption).
      rewrite Mt in Mx. discriminate.
  - intros x Hx Hnot. unfold result.
    rewrite updateTheme_table. unfold update. cbn [snd].
    apply in_map_iff. exists x. split; [|exact Hx].
    destruct (matching (where_id_and_user themeId userId) x) eqn:Mx;
      [|reflexivity].
    apply matching_true_iff in Mx. destruct (Hnot Mx).
Qed.

Lemma filter_updated (set : Row -> Row) (w : Where ThemeColors)
  (tbl : list Row) :
  (forall r, matching w (set r) = matching w r) ->
  filter (matching w) (map (fun r => if matching w r then set r else r) tbl)
  = map set (filter (matching w) tbl).
Proof.
  intros Hm. induction tbl as [|r tbl IH]; [reflexivity|].
  cbn [map filter]. destruct (matching w r) eqn:M.
  - rewrite Hm, M. cbn [map]. rewrite IH. reflexivity.
  - rewrite M. exact IH.
Qed.

Lemma map_updated (set : Row -> Row) (w : Where ThemeColors)
  (tbl : list Row) :
  (forall r, matching w (set r) = matching w r) ->
  (forall r, set (set r) = set r) ->
  map (fun r => if matching w r then set r else r)
      (map (fun r => if matching w r then set r else r) tbl)
  = map (fun r => if matching w r then set r else r) tbl.
Proof.
  intros Hm Hs. rewrite map_map. apply map_ext. intros r.
  destruct (matching w r) eqn:M.
  - rewrite Hm, M. apply Hs.
  - rewrite M. reflexivity.
Qed.

Lemma update_twice (set : Row -> Row) (w : Where ThemeColors)
  (tbl : list Row) :
  (forall r, matching w (set r) = matching w r) ->
  (forall r, set (set r) = set r) ->
  update set w (snd (update set w tbl)) = update set w tbl.
Proof.
  intros Hm Hs. unfold update. cbn [snd].
  rewrite (filter_updated _ _ _ Hm), (map_updated _ _ _ Hm Hs).
  rewrite map_map. rewrite (map_ext _ set (fun r => Hs r)). reflexivity.
Qed.

(** X5.  [updateTheme] is idempotent: the same update applied to the table
    it left gives the same outcome and leaves the same table. *)
Theorem updateTheme_twice (themeId userId lbl : string)
  (cols : option ThemeColors) (css html : option string) (tbl : list Row) :
  let once := updateTheme toTheme themeId userId lbl cols css html tbl in
  updateTheme toTheme themeId userId lbl cols css html (snd once) = once.
Proof.
  cbn zeta. rewrite updateTheme_table. unfold updateTheme.
  rewrite update_twice; reflexivity.
Qed.

(** *** Deleting *)

Lemma deleteTheme_table (themeId userId : string) (tbl : list Row) :
  snd (deleteTheme toTheme themeId userId tbl)
  = filter (fun r => negb (matching (where_id_and_user themeId userId) r)) tbl.
Proof.
  unfold deleteTheme, delete.
  destruct (rowCount _ <=? 0); reflexivity.
Qed.

(** X6.  [deleteTheme] gives the converted first row that has the id and
    the caller as owner, as it was before the deletion, and throws
    NOT_FOUND when there is none; the rows left are exactly the rows that
    do not have both that id and that owner. *)
Theorem deleteTheme_by_owner (themeId userId : string) (tbl : list Row) :
  let result := deleteTheme toTheme themeId userId tbl in
  fst result
  = match find (fun r => String.eqb (id r) themeId && owned_by userId r) tbl
    with
    | Some r => Returned (toTheme r)
    | None =>
        Thrown (HttpError 404
          "Failed to delete the theme because the id couldn't be found.")
    end
  /\ forall r, In r (snd result)
               <-> In r tbl /\ ~ (id r = themeId /\ user_id r = Some userId).
Proof.
  cbn zeta. split.
  - unfold deleteTheme, delete. rewrite guarded_first_row. cbn [fst].
    rewrite (filter_ext _ _ (matching_where_id_and_user themeId userId)).
    rewrite <- filter_first_is_find.
    destruct (filter _ tbl); reflexivity.
  - intros r. rewrite deleteTheme_table, filter_In.
    rewrite negb_true_iff, <- not_true_iff_false, matching_true_iff.
    reflexivity.
Qed.

(** X7.  After [deleteTheme], successful or not, the same caller finds
    nothing left under the id: a second [deleteTheme] and an [updateTheme]
    both throw NOT_FOUND and leave the table as it is. *)
Theorem deleteTheme_then_not_found (themeId userId lbl : string)
  (cols : option ThemeColors) (css html : option string) (tbl : list Row) :
  let tbl' := snd (deleteTheme toTheme themeId userId tbl) in
  deleteTheme toTheme themeId userId tbl'
  = (Thrown (HttpError 404
       "Failed to delete the theme because the id couldn't be found."), tbl')
  /\ updateTheme toTheme themeId userId lbl cols css html tbl'
     = (Thrown (HttpError 404
          "Failed to update the theme because the id couldn't be found."),
        tbl').
Proof.
  cbn zeta. rewrite deleteTheme_table.
  assert (H : forall r,
             In r (filter (fun r => negb (matching
                             (where_id_and_user themeId userId) r)) tbl) ->
             matching (where_id_and_user themeId userId) r = false).
  { intros r Hr. apply filter_In in Hr. destruct Hr as [_ Hr].
    apply negb_true_iff in Hr. exact Hr. }
  split.
  - apply deleteTheme_no_match, H.
  - apply updateTheme_no_match, H.
Qed.

(** *** Listing after a change *)

Lemma listThemes_outcome (V : Type) (view : Row -> V) (userId : string)
  (includeGlobal : bool) (tbl : list Row) :
  fst (listThemes view userId includeGlobal tbl)
  = match map view (filter (fun r => owned_by userId r
                                     || (includeGlobal && global r)) tbl) with
    | [] => Thrown (HttpError 404 "No themes were found.")
    | t :: ts => Returned (t :: ts)
    end.
Proof.
  unfold listThemes. rewrite listThemes_query, rowCount_le_0.
  destruct (filter _ tbl); reflexivity.
Qed.

Lemma listed_after_update (V : Type) (view : Row -> V) (p : Row -> bool)
  (u : Row -> Row) (tbl : list Row) :
  (forall r, p (u r) = p r) ->
  (forall r, view (u r) = view r) ->
  map view (filter p (map u tbl)) = map view (filter p tbl).
Proof.
  intros Hp Hv. induction tbl as [|r tbl IH]; [reflexivity|].
  cbn [map filter]. rewrite Hp.
  destruct (p r); cbn [map]; rewrite ?Hv, IH; reflexivity.
Qed.

(** X8.  An [updateTheme] changes nothing of what [listThemes] lists, as
    far as identity goes.  Through any view of a row that does not look at
    the label, palette, stylesheet and markup (its id, say), a user who
    was listed themes before the update is listed the same ones after it,
    each as many times, in whatever order; and a user who got NOT_FOUND
    before gets it after. *)
Theorem updateTheme_keeps_listing (V : Type) (view : Row -> V)
  (themeId userId lbl : string) (cols : option ThemeColors)
  (css html : option string) (reader : string) (includeGlobal : bool)
  (tbl : list Row) :
  (forall l c s h r, view (set_content l c s h r) = view r) ->
  match
    fst (listThemes view reader includeGlobal
           (snd (updateTheme toTheme themeId userId lbl cols css html tbl))),
    fst (listThemes view reader includeGlobal tbl)
  with
  | Returned after, Returned before => Permutation after before
  | Thrown e', Thrown e =>
      e' = e /\ e = HttpError 404 "No themes were found."
  | _, _ => False
  end.
Proof.
  intros Hview. rewrite !listThemes_outcome, updateTheme_table.
  unfold update. cbn [snd].
  rewrite (listed_after_update view
             (fun r => owned_by reader r || (includeGlobal && global r))
             (fun r => if matching (where_id_and_user themeId userId) r
                       then set_content lbl cols css html r else r)).
  - destruct (map view _) as [|t ts].
    + split; reflexivity.
    + apply Permutation_refl.
  - intros r. destruct (matching _ r); reflexivity.
  - intros r. destruct (matching _ r); [apply Hview|reflexivity].
Qed.

(** *** The administrative operations *)

Lemma setGlobal_table (themeId : string) (g : bool) (tbl : list Row) :
  snd (setGlobal toTheme themeId g tbl)
  = map (fun r => if String.eqb (id r) themeId then set_global g r else r) tbl.
Proof.
  unfold setGlobal, update.
  assert (E : map (fun r => if matching (where_id themeId) r
                            then set_global g r else r) tbl
              = map (fun r => if String.eqb (id r) themeId
                              then set_global g r else r) tbl).
  { apply map_ext. intros r. rewrite matching_where_id. reflexivity. }
  destruct (rowCount _ <=? 0); cbn [snd]; exact E.
Qed.

Lemma setUserId_table (themeId userId : string) (tbl : list Row) :
  snd (setUserId toTheme themeId userId tbl)
  = map (fun r => if String.eqb (id r) themeId
                  then set_user_id userId r else r) tbl.
Proof.
  unfold setUserId, update.
  assert (E : map (fun r => if matching (where_id themeId) r
                            then set_user_id userId r else r) tbl
              = map (fun r => if String.eqb (id r) themeId
                              then set_user_id userId r else r) tbl).
  { apply map_ext. intros r. rewrite matching_where_id. reflexivity. }
  destruct (rowCount _ <=? 0); cbn [snd]; exact E.
Qed.

Lemma listThemes_returns (userId : string) (includeGlobal : bool)
  (tbl : list Row) (r : Row) :
  In r tbl ->
  owned_by userId r || (includeGlobal && global r) = true ->
  exists ts,
    listThemes toTheme userId includeGlobal tbl = (Returned ts, tbl)
    /\ In (toTheme r) ts.
Proof.
  intros Hin Hp. unfold listThemes.
  rewrite listThemes_query, rowCount_le_0.
  assert (Hr : In r (filter (fun r => owned_by userId r
                                      || (includeGlobal && global r)) tbl))
    by (apply filter_In; split; assumption).
  destruct (filter _ tbl) as [|r0 rs] eqn:F; [destruct Hr|].
  eexists. split; [reflexivity|].
  cbn [rows result_of]. apply in_map. exact Hr.
Qed.

Lemma listThemes_rows (userId : string) (includeGlobal : bool)
  (tbl tbl' : list Row) (ts : list Theme) :
  listThemes toTheme userId includeGlobal tbl = (Returned ts, tbl') ->
  ts = map toTheme (filter (fun r => owned_by userId r
                                     || (includeGlobal && global r)) tbl).
Proof.
  unfold listThemes. rewrite listThemes_query, rowCount_le_0.
  destruct (filter _ tbl); intros H; inversion H; reflexivity.
Qed.

(** X9.  [setGlobal] asks for no owner.  Once a theme that exists was set
    global, every user is listed it by [listThemes] with [includeGlobal]
    set, whoever owns it. *)
Theorem setGlobal_true_listed_to_all (themeId reader : string)
  (tbl : list Row) (r : Row) :
  In r tbl -> id r = themeId ->
  let tbl' := snd (setGlobal toTheme themeId true tbl) in
  fst (setGlobal toTheme themeId true tbl) <>
    Thrown (HttpError 404
      "Failed to add a new theme because the id couldn't be found.")
  /\ exists ts,
       listThemes toTheme reader true tbl' = (Returned ts, tbl')
       /\ In (toTheme (set_global true r)) ts.
Proof.
  intros Hin Hid tbl'. split.
  - unfold setGlobal, update. rewrite guarded_first_row. cbn [fst].
    assert (Hr : In r (filter (matching (where_id themeId)) tbl)).
    { apply filter_In. split; [exact Hin|].
      rewrite matching_where_id. apply String.eqb_eq. exact Hid. }
    destruct (filter _ tbl); [destruct Hr|]. cbn. discriminate.
  - apply listThemes_returns.
    + unfold tbl'. rewrite setGlobal_table. apply in_map_iff.
      exists r. split; [|exact Hin].
      apply String.eqb_eq in Hid. rewrite Hid. reflexivity.
    + cbn. apply orb_true_r.
Qed.

(** X10.  Once [setGlobal] has cleared the flag of a theme, [listThemes]
    lists a row under that id only to the user who owns it. *)
Theorem setGlobal_false_listed_to_owner_only (themeId reader : string)
  (includeGlobal : bool) (tbl tbl'' : list Row) (ts : list Theme) :
  let tbl' := snd (setGlobal toTheme themeId false tbl) in
  listThemes toTheme reader includeGlobal tbl' = (Returned ts, tbl'') ->
  exists rs,
    ts = map toTheme rs
    /\ forall r, In r rs -> id r = themeId -> user_id r = Some reader.
Proof.
  intros tbl' H. apply listThemes_rows in H.
  eexists. split; [exact H|].
  intros r Hr Hid. apply filter_In in Hr. destruct Hr as [Hin Hp].
  unfold tbl' in Hin. rewrite setGlobal_table in Hin.
  apply in_map_iff in Hin. destruct Hin as [x [Hx _]].
  destruct (String.eqb (id x) themeId) eqn:E.
  - subst r. cbn in Hp. rewrite andb_false_r, orb_false_r in Hp.
    apply owned_by_true in Hp. exact Hp.
  - subst r. apply String.eqb_neq in E. destruct (E Hid).
Qed.

(** X11.  [setUserId] hands a theme over.  Once it was applied to a theme
    that exists, [updateTheme] by the new owner succeeds, and [updateTheme]
    and [deleteTheme] by any other user, the former owner included, throw
    NOT_FOUND and leave the table as it is. *)
Theorem setUserId_transfers_ownership (themeId newOwner lbl : string)
  (cols : option ThemeColors) (css html : option string)
  (tbl : list Row) (r : Row) :
  In r tbl -> id r = themeId ->
  let tbl' := snd (setUserId toTheme themeId newOwner tbl) in
  (exists t,
      fst (updateTheme toTheme themeId newOwner lbl cols css html tbl')
      = Returned t)
  /\ forall other, other <> newOwner ->
       updateTheme toTheme themeId other lbl cols css html tbl'
       = (Thrown (HttpError 404
            "Failed to update the theme because the id couldn't be found."),
          tbl')
       /\ deleteTheme toTheme themeId other tbl'
          = (Thrown (HttpError 404
               "Failed to delete the theme because the id couldn't be found."),
             tbl').
Proof.
  intros Hin Hid tbl'.
  assert (Howner : forall x, In x tbl' -> id x = themeId ->
                             user_id x = Some newOwner).
  { intros x Hx Hxid. unfold tbl' in Hx. rewrite setUserId_table in Hx.
    apply in_map_iff in Hx. destruct Hx as [y [Hy _]].
    destruct (String.eqb (id y) themeId) eqn:E.
    - subst x. reflexivity.
    - subst x. apply String.eqb_neq in E. destruct (E Hxid). }
  assert (Hthere : In (set_user_id newOwner r) tbl').
  { unfold tbl'. rewrite setUserId_table. apply in_map_iff.
    exists r. split; [|exact Hin].
    apply String.eqb_eq in Hid. rewrite Hid. reflexivity. }
  split.
  - unfold updateTheme, update. rewrite guarded_first_row. cbn [fst].
    assert (Hr : In (set_user_id newOwner r)
                   (filter (matching (where_id_and_user themeId newOwner))
                           tbl')).
    { apply filter_In. split; [exact Hthere|].
      apply matching_true_iff. split; [exact Hid|reflexivity]. }
    destruct (filter _ tbl') as [|r0 rs]; [destruct Hr|].
    eexists. reflexivity.
  - intros other Hother.
    assert (Hno : forall x, In x tbl' -> id x = themeId ->
                            user_id x <> Some other).
    { intros x Hx Hxid Hxo. rewrite (Howner x Hx Hxid) in Hxo.
      injection Hxo as E. exact (Hother (eq_sym E)). }
    split.
    + apply updateTheme_no_match.
      apply (@no_match_other_owner _ themeId other tbl' Hno).
    + apply deleteTheme_no_match.
      apply (@no_match_other_owner _ themeId other tbl' Hno).
Qed.

(** X12.  What [listThemes] gives without the global themes it also gives
    with them: when the listing without them succeeds, so does the listing
    with them, and it contains every theme of the former. *)
Theorem listThemes_includeGlobal_adds (userId : string)
  (tbl tbl' : list Row) (ts : list Theme) :
  listThemes toTheme userId false tbl = (Returned ts, tbl') ->
  exists ts',
    listThemes toTheme userId true tbl = (Returned ts', tbl)
    /\ forall t, In t ts -> In t ts'.
Proof.
  intros H. pose proof (listThemes_rows _ _ _ H) as Hts.
  assert (Hsub : forall r,
             In r (filter (fun r => owned_by userId r
                                    || (false && global r)) tbl) ->
             In r tbl /\ owned_by userId r || (true && global r) = true).
  { intros r Hr. apply filter_In in Hr. destruct Hr as [Hin Hp].
    split; [exact Hin|].
    cbn in Hp. rewrite orb_false_r in Hp. rewrite Hp. reflexivity. }
  assert (Hsome : exists r0,
             In r0 (filter (fun r => owned_by userId r
                                     || (false && global r)) tbl)).
  { pose proof (listThemes_outcome toTheme userId false tbl) as O.
    rewrite H in O. cbn [fst] in O.
    destruct (filter (fun r => owned_by userId r || (false && global r)) tbl)
      as [|r0 rs]; [discriminate|].
    exists r0. left. reflexivity. }
  destruct Hsome as [r0 Hr0].
  destruct (Hsub r0 Hr0) as [Hin0 Hp0].
  destruct (listThemes_returns userId true tbl r0 Hin0 Hp0) as [ts' [E _]].
  exists ts'. split; [exact E|].
  intros t Ht. rewrite (listThemes_rows _ _ _ E). subst ts.
  apply in_map_iff in Ht. destruct Ht as [r [<- Hr]].
  apply in_map. destruct (Hsub r Hr) as [Hin Hp].
  apply filter_In. split; assumption.
Qed.

(** *** Creating *)

(** X13.  [createTheme] adds one row, owned by the caller and carrying the
    given content, after the rows of the table, and gives it back
    converted.  The user is listed it at once, with or without the global
    themes; and when the id the database assigned is new to the table,
    [getTheme] reads the row back and [deleteTheme] by the caller gives it
    back and restores the table. *)
Theorem createTheme_then_read (assignedId userId lbl : string)
  (assignedGlobal includeGlobal : bool) (cols : option ThemeColors)
  (css html : option string) (tbl : list Row) :
  let row :=
    {| id := assignedId; user_id := Some userId; label := lbl;
       colors := cols; custom_css := css; custom_html := html;
       global := assignedGlobal |} in
  let tbl' := (tbl ++ [row])%list in
  createTheme toTheme assignedId assignedGlobal userId lbl cols css html tbl
  = (Returned (toTheme row), tbl')
  /\ (exists ts,
         listThemes toTheme userId includeGlobal tbl' = (Returned ts, tbl')
         /\ In (toTheme row) ts)
  /\ ((forall r, In r tbl -> id r <> assignedId) ->
      getTheme toTheme assignedId tbl' = (Returned (toTheme row), tbl')
      /\ deleteTheme toTheme assignedId userId tbl'
         = (Returned (toTheme row), tbl)).
Proof.
  intros row tbl'. split; [reflexivity|]. split.
  - apply listThemes_returns.
    + apply in_or_app. right. left. reflexivity.
    + cbn. rewrite String.eqb_refl. reflexivity.
  - intros Hfresh.
    assert (Hid : forall r, In r tbl -> String.eqb (id r) assignedId = false).
    { intros r Hr. apply String.eqb_neq. apply Hfresh. exact Hr. }
    split.
    + unfold getTheme, select. rewrite guarded_first_row.
      unfold tbl'. rewrite filter_app.
      rewrite (filter_nothing (matching (where_id assignedId)) tbl).
      * cbn. unfold matching, where_id. cbn.
        rewrite String.eqb_refl. reflexivity.
      * intros r Hr. rewrite matching_where_id. apply Hid. exact Hr.
    + assert (Hno : forall r, In r tbl ->
                  matching (where_id_and_user assignedId userId) r = false).
      { intros r Hr. rewrite matching_where_id_and_user, (Hid r Hr).
        reflexivity. }
      assert (Hrow : matching (where_id_and_user assignedId userId) row = true).
      { apply matching_true_iff. split; reflexivity. }
      unfold deleteTheme, delete. rewrite guarded_first_row.
      unfold tbl'. rewrite !filter_app.
      rewrite (filter_nothing _ tbl Hno), (filter_everything _ tbl Hno).
      cbn [filter app]. rewrite Hrow. cbn [negb app].
      rewrite app_nil_r. reflexivity.
Qed.

End ThemeServiceOperations.

(** * Further properties of the user controller *)

Section UserControllerOperations.

Import UserController.

Variable World : Type.
Variable Association : Type.
Variable userService : UserService World Association.
Variable profileService : ProfileService World.
Variable config : Config.
Variable now : Z.

Local Abbreviation State := (St World Association).
Local Abbreviation create_user :=
  (CreateUser userService profileService config now).
Local Abbreviation rejected c m s :=
  (@Returned (option (Payload Association)) None,
   replied c (error_payload Association m None) s).

(** X14.  /user/login and /user/create test the email first and the
    password next: without an email the answer is 400 "No email was
    provided.", with an email but without a password it is 400 "No
    password was provided.", and in both cases no service is called: the
    store and the analytics log stay as they are. *)
Theorem missing_credentials_rejected :
  (forall (request : FastifyRequest LoginUserRequest.Body) (s : State),
      truthy (LoginUserRequest.email (body request)) = false ->
      LoginUser userService config request s
      = rejected 400 "No email was provided." s)
  /\ (forall (request : FastifyRequest LoginUserRequest.Body) (s : State),
        truthy (LoginUserRequest.email (body request)) = true ->
        truthy (LoginUserRequest.password (body request)) = false ->
        LoginUser userService config request s
        = rejected 400 "No password was provided." s)
  /\ (forall (request : FastifyRequest CreateUserRequest.Body) (s : State),
        truthy (CreateUserRequest.email (body request)) = false ->
        create_user request s = rejected 400 "No email was provided." s)
  /\ (forall (request : FastifyRequest CreateUserRequest.Body) (s : State),
        truthy (CreateUserRequest.email (body request)) = true ->
        truthy (CreateUserRequest.password (body request)) = false ->
        create_user request s = rejected 400 "No password was provided." s).
Proof.
  repeat split.
  - intros request s He. unfold LoginUser. rewrite He. reflexivity.
  - intros request s He Hp. unfold LoginUser. rewrite He, Hp. reflexivity.
  - intros request s He. unfold CreateUser. rewrite He. reflexivity.
  - intros request s He Hp. unfold CreateUser. rewrite He, Hp. reflexivity.
Qed.

(** X15.  /user/request-reset-password without an email answers with the
    status NOT_FOUND (404), not 400, and the message "No email was
    provided."; no reset email is asked for and nothing is tracked. *)
Theorem request_reset_without_email_is_404
  (request : FastifyRequest UserRequestResetPasswordRequest.Body)
  (s : State) :
  truthy (UserRequestResetPasswordRequest.email (body request)) = false ->
  UserRequestResetPassword userService config request s
  = rejected 404 "No email was provided." s
  /\ respond (UserRequestResetPassword userService config request s)
     = Sent 404 (error_payload Association "No email was provided." None).
Proof.
  intros He.
  assert (E : UserRequestResetPassword userService config request s
              = rejected 404 "No email was provided." s)
    by (unfold UserRequestResetPassword; rewrite He; reflexivity).
  split; [exact E|]. rewrite E. reflexivity.
Qed.

(** The events a handler reports, when a client is configured. *)
Local Abbreviation tracked events :=
  (if mixpanel config then events else @nil MixpanelCall).

(** X16.  A login that the user service accepts resolves to the very
    object the service gave, leaves the status code alone, and reports one
    "user logged in" event, carrying the user id, the address of the
    request and the id of the active profile if there is one, when
    analytics is configured and none otherwise. *)
Theorem LoginUser_accepted
  (request : FastifyRequest LoginUserRequest.Body) (s : State)
  (r : LoginResult) (w' : World) :
  truthy (LoginUserRequest.email (body request)) = true ->
  truthy (LoginUserRequest.password (body request)) = true ->
  loginUser userService
    (str (LoginUserRequest.email (body request)))
    (str (LoginUserRequest.password (body request))) (world s)
  = (Returned r, w') ->
  LoginUser userService config request s
  = (Returned (Some (login_payload Association r)),
     {| reply := reply s;
        world := w';
        mixpanel_log :=
          (mixpanel_log s
           ++ tracked
                [track "user logged in"
                   [("distinct_id", Some (User.id (login_user r)));
                    ("$ip", Some (ip request));
                    ("profile",
                     option_map Profile.id (login_activeProfile r))]])%list
     |}).
Proof.
  intros He Hp H. unfold LoginUser. rewrite He, Hp. cbn [negb].
  run_handler. rewrite H.
  destruct (mixpanel config); cbn; rewrite ?app_nil_r; reflexivity.
Qed.

(** X17.  A /user/create request with email and password whose handle
    lookup throws NOT_FOUND runs, in this order, [createUser] with the
    submitted email, password and name, [createProfile] with the id of
    that user and the submitted handle, and [setActiveProfile] with the
    two ids; when all three succeed and a secret is configured it
    resolves to the user, the profile and the token, leaves the status
    code alone, and reports "user created" and then the identity
    properties of the user when analytics is configured. *)
Theorem CreateUser_free_handle
  (request : FastifyRequest CreateUserRequest.Body) (s : State)
  (m : string) (user : User.t) (profile : Profile.t) (a : Association)
  (w1 w2 w3 w4 : World) :
  truthy (CreateUserRequest.email (body request)) = true ->
  truthy (CreateUserRequest.password (body request)) = true ->
  getProfileByHandle profileService
    (CreateUserRequest.handle (body request)) false (world s)
  = (Thrown (HttpError StatusCodes.NOT_FOUND m), w1) ->
  createUser userService
    (str (CreateUserRequest.email (body request)))
    (str (CreateUserRequest.password (body request)))
    (CreateUserRequest.name (body request)) w1
  = (Returned user, w2) ->
  createProfile profileService (User.id user)
    (CreateUserRequest.handle (body request)) w2
  = (Returned profile, w3) ->
  setActiveProfile userService (User.id user) (Profile.id profile) w3
  = (Returned a, w4) ->
  secret config <> "" ->
  create_user request s
  = (Returned (Some (created_payload Association user profile
                       {| jwt.claim_email := User.email user;
                          jwt.iat := now;
                          jwt.exp := now + 604800;
                          jwt.signedWith := secret config |})),
     {| reply := reply s;
        world := w4;
        mixpanel_log :=
          (mixpanel_log s
           ++ tracked
                [track "user created"
                   [("distinct_id", Some (User.id user));
                    ("$ip", Some (ip request));
                    ("profile", Some (Profile.id profile))];
                 people_set (User.id user)
                   [("$email", Some (User.email user));
                    ("$created", Some (User.createdOn user))]])%list |}).
Proof.
  intros He Hp Hcheck Hu Hpr Ha Hsecret.
  unfold CreateUser. rewrite He, Hp. cbn [negb].
  unfold try_catch at 1. unfold bind at 1.
  rewrite (check_handle_not_found _ _ _ Hcheck).
  run_handler. rewrite Hu. cbn [world]. rewrite Hpr. cbn [world].
  rewrite Ha. unfold jwt.sign.
  apply String.eqb_neq in Hsecret. rewrite Hsecret.
  change (jwt.span 0 false "168h") with (Some 604800).
  destruct (mixpanel config); cbn; rewrite ?app_nil_r;
    [rewrite <- app_assoc|]; reflexivity.
Qed.

(** X18.  When the caller owns the profile named, /user/set-active-profile
    reports "user set active profile" if analytics is configured, calls
    [setActiveProfile] with the id of the caller and the id named, and
    resolves to what that call gives, with the status code left alone. *)
Theorem SetActiveProfile_by_owner
  (request : FastifyRequest SetActiveProfileRequest.Body) (s : State)
  (p : Profile.t) (a : Association) (w1 w2 : World) :
  let caller := SetActiveProfileRequest.authUser (body request) in
  let named := SetActiveProfileRequest.newProfileId (body request) in
  truthy named = true ->
  getProfile profileService (str named) (world s) = (Returned p, w1) ->
  User.id caller = Profile.userId p ->
  setActiveProfile userService (User.id caller) (str named) w1
  = (Returned a, w2) ->
  SetActiveProfile userService profileService config request s
  = (Returned (Some (association_payload a)),
     {| reply := reply s;
        world := w2;
        mixpanel_log :=
          (mixpanel_log s
           ++ tracked
                [track "user set active profile"
                   [("distinct_id", Some (User.id caller));
                    ("$ip", Some (ip request));
                    ("profile", Some (str named))]])%list |}).
Proof.
  intros caller named Hn Hget Hown Hset. unfold SetActiveProfile.
  fold caller named. run_handler. unfold named in *. rewrite Hn.
  cbn [negb]. rewrite Hget.
  apply String.eqb_eq in Hown. unfold caller in *. rewrite Hown. cbn [negb].
  destruct (mixpanel config); cbn; rewrite Hset; cbn;
    rewrite ?app_nil_r; reflexivity.
Qed.

(** X19.  The last call of /user/set-active-profile is returned without
    being awaited.  When it rejects, the closing catch clause is not run:
    whatever the error, even one that carries a status code, it leaves the
    handler as it is, the status code of the reply is not set, and the
    event was already reported. *)
Theorem SetActiveProfile_last_call_not_caught
  (request : FastifyRequest SetActiveProfileRequest.Body) (s : State)
  (p : Profile.t) (e : Exn) (w1 w2 : World) :
  let caller := SetActiveProfileRequest.authUser (body request) in
  let named := SetActiveProfileRequest.newProfileId (body request) in
  truthy named = true ->
  getProfile profileService (str named) (world s) = (Returned p, w1) ->
  User.id caller = Profile.userId p ->
  setActiveProfile userService (User.id caller) (str named) w1
  = (Thrown e, w2) ->
  SetActiveProfile userService profileService config request s
  = (Thrown e,
     {| reply := reply s;
        world := w2;
        mixpanel_log :=
          (mixpanel_log s
           ++ tracked
                [track "user set active profile"
                   [("distinct_id", Some (User.id caller));
                    ("$ip", Some (ip request));
                    ("profile", Some (str named))]])%list |})
  /\ (sent (reply s) = None ->
      respond (SetActiveProfile userService profileService config request s)
      = Uncaught Association e).
Proof.
  intros caller named Hn Hget Hown Hset.
  assert (E : SetActiveProfile userService profileService config request s
              = (Thrown e,
                 {| reply := reply s;
                    world := w2;
                    mixpanel_log :=
                      (mixpanel_log s
                       ++ tracked
                            [track "user set active profile"
                               [("distinct_id", Some (User.id caller));
                                ("$ip", Some (ip request));
                                ("profile", Some (str named))]])%list |})).
  { unfold SetActiveProfile. fold caller named. run_handler.
    unfold named in *. rewrite Hn. cbn [negb]. rewrite Hget.
    apply String.eqb_eq in Hown. unfold caller in *. rewrite Hown.
    cbn [negb].
    destruct (mixpanel config); cbn; rewrite Hset; cbn;
      rewrite ?app_nil_r; reflexivity. }
  split; [exact E|].
  intros Hs. rewrite E. unfold respond. cbn. rewrite Hs. reflexivity.
Qed.

Ltac by_cases :=
  repeat (match goal with
          | |- context [match ?f (world ?s) with _ => _ end] =>
              destruct (f (world s)) as [[?|[? ?|?]] ?]
          | |- context [match ?f ?w with _ => _ end] =>
              match type of (f w) with
              | (Outcome _ * World)%type =>
                  destruct (f w) as [[?|[? ?|?]] ?]
              end
          | |- context [if ?b then _ else _] => destruct b
          | |- context [match ?o with Some _ => _ | None => _ end] =>
              destruct o
          | |- context [match ?o with Returned _ => _ | Thrown _ => _ end] =>
              destruct o
          | |- context [match ?e with HttpError _ _ => _ | OtherError _ => _
                        end] =>
              destruct e
          end;
          unfold bind, ret, throw;
          cbn [fst snd reply world mixpanel_log statusCode sent]);
  try reflexivity.

(** X20.  When no analytics token is configured, no handler reports
    anything: whatever the request, the services and the outcome, the
    analytics log after the handler is the log before it. *)
Theorem nothing_tracked_without_token :
  truthy (mixpanelToken config) = false ->
  (forall request s,
      mixpanel_log (snd (LoginUser userService config request s))
      = mixpanel_log s)
  /\ (forall request s,
        mixpanel_log (snd (create_user request s)) = mixpanel_log s)
  /\ (forall request s,
        mixpanel_log
          (snd (UserRequestResetPassword userService config request s))
        = mixpanel_log s)
  /\ (forall request s,
        mixpanel_log
          (snd (SetActiveProfile userService profileService config request s))
        = mixpanel_log s).
Proof.
  intros Hoff.
  assert (Hm : mixpanel config = false) by exact Hoff.
  repeat split; intros request s.
  - unfold LoginUser. run_handler. rewrite Hm. by_cases.
  - unfold CreateUser, check_handle. run_handler. rewrite Hm. by_cases.
  - unfold UserRequestResetPassword. run_handler. rewrite Hm. by_cases.
  - unfold SetActiveProfile. run_handler. rewrite Hm. by_cases.
Qed.

(** X21.  The two password reset routes answer a request that the user
    service accepts with their fixed acknowledgment, whoever the user is.
    /user/request-reset-password reports the request when analytics is
    configured; /user/reset-password reports nothing, configured or not,
    and hands the token and the new password to [setPasswordWithToken]. *)
Theorem password_reset_acknowledged :
  (forall (request : FastifyRequest UserRequestResetPasswordRequest.Body)
          (s : State) (user : User.t) (w' : World),
      truthy (UserRequestResetPasswordRequest.email (body request)) = true ->
      sendPasswordResetEmail userService
        (str (UserRequestResetPasswordRequest.email (body request))) (world s)
      = (Returned user, w') ->
      UserRequestResetPassword userService config request s
      = (Returned (Some (success_payload Association
                           "Successfully sent password reset email.")),
         {| reply := reply s;
            world := w';
            mixpanel_log :=
              (mixpanel_log s
               ++ tracked
                    [track "user requested password reset"
                       [("distinct_id", Some (User.id user));
                        ("$ip", Some (ip request))]])%list |}))
  /\ (forall (request : FastifyRequest ResetUserPasswordRequest.Body)
             (s : State) (w' : World),
        truthy (ResetUserPasswordRequest.token (body request)) = true ->
        truthy (ResetUserPasswordRequest.password (body request)) = true ->
        setPasswordWithToken userService
          (str (ResetUserPasswordRequest.token (body request)))
          (str (ResetUserPasswordRequest.password (body request))) (world s)
        = (Returned tt, w') ->
        ResetUserPassword userService request s
        = (Returned (Some (success_payload Association
                             "Successfully changed password.")),
           {| reply := reply s; world := w';
              mixpanel_log := mixpanel_log s |})).
Proof.
  split.
  - intros request s user w' He H. unfold UserRequestResetPassword.
    rewrite He. cbn [negb]. run_handler. rewrite H.
    destruct (mixpanel config); cbn; rewrite ?app_nil_r; reflexivity.
  - intros request s w' Ht Hp H. unfold ResetUserPassword.
    rewrite Ht, Hp. cbn [negb]. run_handler. rewrite H. reflexivity.
Qed.

End UserControllerOperations.

(** * The further properties on the example data *)

(** X4, on the example table: alice relabels her theme "t1". *)
Lemma updateTheme_by_owner_example :
  let result :=
    ThemeService.updateTheme Examples.toTheme "t1" "alice" "dark" None
      (Some "body{}") None Examples.themes in
  fst result
  = Returned (ThemeService.set_content "dark" None (Some "body{}") None
                (Examples.row "t1" (Some "alice") false))
  /\ In (ThemeService.set_content "dark" None (Some "body{}") None
           (Examples.row "t1" (Some "alice") false)) (snd result)
  /\ In (Examples.row "t2" (Some "bob") false) (snd result).
Proof.
  destruct (@updateTheme_by_owner string _ Examples.toTheme "t1" "alice"
              "dark" None (Some "body{}") None Examples.themes)
    as [Hfst [Hupdated [_ Hkept]]].
  split; [exact Hfst|]. split.
  - apply Hupdated; [left; reflexivity|reflexivity|reflexivity].
  - apply Hkept.
    + right. left. reflexivity.
    + intros [Hid _]. discriminate Hid.
Defined.

(** X8, on the example table: alice updates her theme "t1"; the ids she
    is listed after the update are, up to order, "t1", "t3" and "t4", the
    ids she was listed before. *)
Lemma updateTheme_keeps_listing_example :
  fst (ThemeService.listThemes Examples.id_of "alice" true Examples.themes)
  = Returned ["t1"; "t3"; "t4"]
  /\ exists after,
       fst (ThemeService.listThemes Examples.id_of "alice" true
              (snd (ThemeService.updateTheme Examples.toTheme "t1" "alice"
                      "dark" None None None Examples.themes)))
       = Returned after
       /\ Permutation after ["t1"; "t3"; "t4"].
Proof.
  split; [reflexivity|].
  assert (H := @updateTheme_keeps_listing string _ Examples.toTheme _
                 Examples.id_of "t1" "alice" "dark" None None None "alice"
                 true Examples.themes (fun _ _ _ _ _ => eq_refl)).
  destruct (fst (ThemeService.listThemes Examples.id_of "alice" true
                   (snd (ThemeService.updateTheme Examples.toTheme "t1"
                           "alice" "dark" None None None Examples.themes))))
    as [after|e].
  - exists after. split; [reflexivity|exact H].
  - destruct H.
Defined.

(** X9, on the example table: the theme "t1" of alice, once global, is
    listed to bob. *)
Lemma setGlobal_true_listed_to_all_example :
  let tbl' :=
    snd (ThemeService.setGlobal Examples.toTheme "t1" true Examples.themes) in
  exists ts,
    ThemeService.listThemes Examples.toTheme "bob" true tbl'
    = (Returned ts, tbl')
    /\ In (Examples.row "t1" (Some "alice") true) ts.
Proof.
  apply (@setGlobal_true_listed_to_all string _ Examples.toTheme "t1" "bob"
           Examples.themes (Examples.row "t1" (Some "alice") false)).
  - left. reflexivity.
  - reflexivity.
Defined.

(** X10, on the example table: the theme "t3" of carol, no longer global,
    is not among the rows listed to bob. *)
Lemma setGlobal_false_listed_to_owner_only_example :
  let tbl' :=
    snd (ThemeService.setGlobal Examples.toTheme "t3" false Examples.themes) in
  ThemeService.listThemes Examples.toTheme "bob" true tbl'
  = (Returned [Examples.row "t2" (Some "bob") false;
               Examples.row "t4" None true], tbl')
  /\ exists rs,
       [Examples.row "t2" (Some "bob") false; Examples.row "t4" None true]
       = map Examples.toTheme rs
       /\ forall r, In r rs ->
            ThemeService.id r = "t3" -> ThemeService.user_id r = Some "bob".
Proof.
  split; [reflexivity|].
  apply (@setGlobal_false_listed_to_owner_only string _ Examples.toTheme
           "t3" "bob" true Examples.themes
           (snd (ThemeService.setGlobal Examples.toTheme "t3" false
                   Examples.themes))).
  reflexivity.
Defined.

(** X11, on the example table: the theme "t1" goes from alice to bob. *)
Lemma setUserId_transfers_ownership_example :
  let tbl' :=
    snd (ThemeService.setUserId Examples.toTheme "t1" "bob" Examples.themes) in
  (exists t,
      fst (ThemeService.updateTheme Examples.toTheme "t1" "bob" "dark" None
             None None tbl')
      = Returned t)
  /\ ThemeService.deleteTheme Examples.toTheme "t1" "alice" tbl'
     = (Thrown (HttpError 404
          "Failed to delete the theme because the id couldn't be found."),
        tbl').
Proof.
  destruct (@setUserId_transfers_ownership string _ Examples.toTheme "t1"
              "bob" "dark" None None None Examples.themes
              (Examples.row "t1" (Some "alice") false))
    as [Hnew Hothers].
  - left. reflexivity.
  - reflexivity.
  - split; [exact Hnew|].
    apply (Hothers "alice"). discriminate.
Defined.

(** X12, on the example table: what bob is listed without the global
    themes is among what he is listed with them. *)
Lemma listThemes_includeGlobal_adds_example :
  exists ts',
    ThemeService.listThemes Examples.toTheme "bob" true Examples.themes
    = (Returned ts', Examples.themes)
    /\ forall t, In t [Examples.row "t2" (Some "bob") false] -> In t ts'.
Proof.
  apply (@listThemes_includeGlobal_adds string _ Examples.toTheme "bob"
           Examples.themes Examples.themes).
  reflexivity.
Defined.

(** X13, on the example table: bob creates a theme that gets the id "t5",
    reads it back and deletes it. *)
Lemma createTheme_then_read_example :
  let row :=
    {| ThemeService.id := "t5"; ThemeService.user_id := Some "bob";
       ThemeService.label := "mine"; ThemeService.colors := None;
       ThemeService.custom_css := None; ThemeService.custom_html := None;
       ThemeService.global := false |} in
  let tbl' := (Examples.themes ++ [row])%list in
  ThemeService.getTheme Examples.toTheme "t5" tbl' = (Returned row, tbl')
  /\ ThemeService.deleteTheme Examples.toTheme "t5" "bob" tbl'
     = (Returned row, Examples.themes).
Proof.
  apply (proj2 (proj2 (@createTheme_then_read string _ Examples.toTheme "t5"
                         "bob" "mine" false true None None None
                         Examples.themes))).
  intros r Hr. simpl in Hr.
  destruct Hr as [<-|[<-|[<-|[<-|[]]]]]; discriminate.
Defined.

Local Abbreviation no_password :=
  (UserController.error_payload User.t "No password was provided." None).

(** X14, on the example store: a login without an email, a login without
    a password, and the same for a registration. *)
Lemma missing_credentials_rejected_example :
  UserController.respond
    (UserController.LoginUser Store.userService Examples.config
       (Examples.login_request None (Some "x")) Examples.start)
  = UserController.Sent 400 no_email
  /\ UserController.respond
       (UserController.LoginUser Store.userService Examples.config
          (Examples.login_request (Some "a@b.com") (Some "")) Examples.start)
     = UserController.Sent 400 no_password
  /\ UserController.respond
       (CreateUser_on_store
          (Examples.create_request None None "C" "newbie") Examples.start)
     = UserController.Sent 400 no_email
  /\ UserController.respond
       (CreateUser_on_store
          (Examples.create_request (Some "c@b.com") None "C" "newbie")
          Examples.start)
     = UserController.Sent 400 no_password.
Proof.
  destruct (@missing_credentials_rejected Store.t User.t Store.userService
              Store.profileService Examples.config Examples.clock)
    as [Hl1 [Hl2 [Hc1 Hc2]]].
  split; [|split; [|split]].
  - rewrite Hl1; reflexivity.
  - rewrite Hl2; reflexivity.
  - rewrite Hc1; reflexivity.
  - rewrite Hc2; reflexivity.
Defined.

(** X15, on the example store. *)
Lemma request_reset_without_email_is_404_example :
  UserController.respond
    (UserController.UserRequestResetPassword Store.userService
       Examples.config (Examples.request_reset_request None) Examples.start)
  = UserController.Sent 404 no_email.
Proof.
  apply (@request_reset_without_email_is_404 Store.t User.t
           Store.userService Examples.config
           (Examples.request_reset_request None) Examples.start).
  reflexivity.
Defined.

(** X16, on the example store: alice logs in. *)
Lemma LoginUser_accepted_example :
  UserController.LoginUser Store.userService Examples.config
    (Examples.login_request (Some "a@b.com") (Some "x")) Examples.start
  = (Returned
       (Some (UserController.login_payload User.t
                {| login_user := Examples.alice;
                   login_activeProfile := Some Examples.abee;
                   login_token := "session:a@b.com" |})),
     {| UserController.reply := UserController.reply Examples.start;
        UserController.world := Examples.store;
        UserController.mixpanel_log :=
          [track "user logged in"
             [("distinct_id", Some "user:a@b.com");
              ("$ip", Some "10.0.0.1");
              ("profile", Some "profile:abee")]] |}).
Proof.
  apply (@LoginUser_accepted Store.t User.t Store.userService Examples.config
           (Examples.login_request (Some "a@b.com") (Some "x")) Examples.start
           {| login_user := Examples.alice;
              login_activeProfile := Some Examples.abee;
              login_token := "session:a@b.com" |} Examples.store);
    reflexivity.
Defined.

(** X17, on the example store: carol registers under the free handle
    "newbie". *)
Lemma CreateUser_free_handle_example :
  let after_user :=
    snd (Store.createUser "c@b.com" "z" "C" Examples.store) in
  let after_profile :=
    snd (Store.createProfile "user:c@b.com" "newbie" after_user) in
  let after_active :=
    snd (Store.setActiveProfile "user:c@b.com" "profile:newbie"
           after_profile) in
  CreateUser_on_store
    (Examples.create_request (Some "c@b.com") (Some "z") "C" "newbie")
    Examples.start
  = (Returned
       (Some (UserController.created_payload User.t Examples.carol
                (Examples.profile_of_carol "newbie")
                Examples.token_of_carol)),
     {| UserController.reply := UserController.reply Examples.start;
        UserController.world := after_active;
        UserController.mixpanel_log :=
          [track "user created"
             [("distinct_id", Some "user:c@b.com");
              ("$ip", Some "10.0.0.1");
              ("profile", Some "profile:newbie")];
           people_set "user:c@b.com"
             [("$email", Some "c@b.com");
              ("$created", Some "2021-01-01")]] |}).
Proof.
  intros after_user after_profile after_active.
  apply (@CreateUser_free_handle Store.t User.t Store.userService
           Store.profileService Examples.config Examples.clock
           (Examples.create_request (Some "c@b.com") (Some "z") "C" "newbie")
           Examples.start "The profile couldn't be found." Examples.carol
           (Examples.profile_of_carol "newbie")
           (Store.activate "profile:newbie" Examples.carol)
           Examples.store after_user after_profile after_active);
    try reflexivity.
  discriminate.
Defined.

(** X18, on the example store: alice makes her profile "abee" active. *)
Lemma SetActiveProfile_by_owner_example :
  SetActiveProfile_on_store
    (Examples.set_active_request Examples.alice (Some "profile:abee"))
    Examples.start
  = (Returned
       (Some (UserController.association_payload
                (Store.activate "profile:abee" Examples.alice))),
     {| UserController.reply := UserController.reply Examples.start;
        UserController.world :=
          snd (Store.setActiveProfile "user:a@b.com" "profile:abee"
                 Examples.store);
        UserController.mixpanel_log :=
          [track "user set active profile"
             [("distinct_id", Some "user:a@b.com");
              ("$ip", Some "10.0.0.1");
              ("profile", Some "profile:abee")]] |}).
Proof.
  apply (@SetActiveProfile_by_owner Store.t User.t Store.userService
           Store.profileService Examples.config
           (Examples.set_active_request Examples.alice (Some "profile:abee"))
           Examples.start Examples.abee
           (Store.activate "profile:abee" Examples.alice) Examples.store
           (snd (Store.setActiveProfile "user:a@b.com" "profile:abee"
                   Examples.store)));
    reflexivity.
Defined.

(** X19, on the example store: the last call rejects with an error of
    status 503, and the handler throws it instead of answering 503. *)
Lemma SetActiveProfile_last_call_not_caught_example :
  let unavailable := HttpError 503 "The database is unavailable." in
  UserController.respond
    (UserController.SetActiveProfile
       (Store.userServiceWith Store.createUser
          (fun _ _ => Store.rejects unavailable))
       Store.profileService Examples.config
       (Examples.set_active_request Examples.alice (Some "profile:abee"))
       Examples.start)
  = UserController.Uncaught User.t unavailable.
Proof.
  intros unavailable.
  apply (proj2 (@SetActiveProfile_last_call_not_caught Store.t User.t
                  (Store.userServiceWith Store.createUser
                     (fun _ _ => Store.rejects unavailable))
                  Store.profileService Examples.config
                  (Examples.set_active_request Examples.alice
                     (Some "profile:abee"))
                  Examples.start Examples.abee unavailable Examples.store
                  Examples.store eq_refl eq_refl eq_refl eq_refl)).
  reflexivity.
Defined.

(** X20, on the example store with no analytics token: a login and a
    registration that succeed report nothing. *)
Lemma nothing_tracked_without_token_example :
  UserController.mixpanel_log
    (snd (UserController.LoginUser Store.userService Examples.quiet_config
            (Examples.login_request (Some "a@b.com") (Some "x"))
            Examples.start))
  = []
  /\ UserController.mixpanel_log
       (snd (UserController.CreateUser Store.userService
               Store.profileService Examples.quiet_config Examples.clock
               (Examples.create_request (Some "c@b.com") (Some "z") "C"
                  "newbie")
               Examples.start))
     = [].
Proof.
  destruct (@nothing_tracked_without_token Store.t User.t Store.userService
              Store.profileService Examples.quiet_config Examples.clock
              eq_refl) as [Hlogin [Hcreate _]].
  split.
  - apply (Hlogin (Examples.login_request (Some "a@b.com") (Some "x"))
             Examples.start).
  - apply (Hcreate (Examples.create_request (Some "c@b.com") (Some "z") "C"
                      "newbie") Examples.start).
Defined.

(** X21, on the example store: alice asks for a reset email and then uses
    the token. *)
Lemma password_reset_acknowledged_example :
  let asked :=
    UserController.UserRequestResetPassword Store.userService Examples.config
      (Examples.request_reset_request (Some "a@b.com")) Examples.start in
  fst asked
  = Returned (Some (UserController.success_payload User.t
                      "Successfully sent password reset email."))
  /\ UserController.ResetUserPassword Store.userService
       (Examples.reset_request (Some "reset:a@b.com") (Some "new"))
       (snd asked)
     = (Returned (Some (UserController.success_payload User.t
                          "Successfully changed password.")),
        {| UserController.reply := UserController.reply (snd asked);
           UserController.world :=
             snd (Store.setPasswordWithToken "reset:a@b.com" "new"
                    (UserController.world (snd asked)));
           UserController.mixpanel_log :=
             UserController.mixpanel_log (snd asked) |}).
Proof.
  intros asked.
  destruct (@password_reset_acknowledged Store.t User.t Store.userService
              Examples.config) as [Hask Hreset].
  split.
  - unfold asked.
    rewrite (Hask (Examples.request_reset_request (Some "a@b.com"))
               Examples.start Examples.alice
               (snd (Store.sendPasswordResetEmail "a@b.com" Examples.store))
               eq_refl eq_refl).
    reflexivity.
  - apply (Hreset (Examples.reset_request (Some "reset:a@b.com") (Some "new"))
             (snd asked)
             (snd (Store.setPasswordWithToken "reset:a@b.com" "new"
                     (UserController.world (snd asked))))); reflexivity.
Defined.
